(** * The ClearCase fetcher of BitBake (bitbake/lib/bb/fetch2/clearcase.py)

  A shallow embedding of the [ClearCase] fetch method and the properties of
  its identity scheme, config spec generation, command construction and
  view life cycle. *)

From Stdlib Require Import String Ascii List Bool Arith Lia.
From stdpp Require Import base gmap strings.

Import ListNotations.
Open Scope string_scope.

(* Let [simpl] compute the concatenation of strings again. *)
#[local] Arguments String.append !s1 s2 : simpl nomatch.

(** ** Python strings *)

Module PyStr.

(** [s.startswith(c)] for a one-character [c]. *)
Definition startswith_char (c : ascii) (s : string) : bool :=
  match s with
  | String x _ => Ascii.eqb x c
  | EmptyString => false
  end.

(** [s.endswith(c)] for a one-character [c]. *)
Fixpoint endswith_char (c : ascii) (s : string) : bool :=
  match s with
  | EmptyString => false
  | String x EmptyString => Ascii.eqb x c
  | String _ rest => endswith_char c rest
  end.

(** [c in s] for a one-character [c]. *)
Fixpoint has_char (c : ascii) (s : string) : bool :=
  match s with
  | EmptyString => false
  | String x rest => Ascii.eqb x c || has_char c rest
  end.

(** [s.replace(c, new)] for a one-character pattern [c]: every occurrence
    of [c] is replaced, from left to right. *)
Fixpoint replace_char (c : ascii) (new : string) (s : string) : string :=
  match s with
  | EmptyString => EmptyString
  | String x rest =>
      if Ascii.eqb x c then new ++ replace_char c new rest
      else String x (replace_char c new rest)
  end.

(** [needle in hay]: [needle] occurs in [hay] as a contiguous substring. *)
Fixpoint contains (needle hay : string) : bool :=
  String.prefix needle hay ||
  match hay with
  | EmptyString => false
  | String _ rest => contains needle rest
  end.

(** Truth value of a string: the empty string is false. *)
Definition truthy (s : string) : bool :=
  match s with
  | EmptyString => false
  | String _ _ => true
  end.

(** ["%s" % v] where [v] is a string or [None]. *)
Definition fmt (v : option string) : string :=
  match v with
  | Some s => s
  | None => "None"
  end.

(** [sep.join(l)]. *)
Fixpoint join (sep : string) (l : list string) : string :=
  match l with
  | [] => ""
  | [x] => x
  | x :: rest => x ++ sep ++ join sep rest
  end.

(** Put [x] in front of the first piece of a split. *)
Definition cons_head (x : ascii) (l : list string) : list string :=
  match l with
  | [] => [String x ""]
  | p :: ps => String x p :: ps
  end.

(** [s.split(sep)] for the two-character separator [a b] with [a <> b]
    (so that occurrences cannot overlap): the pieces between the
    occurrences, scanning from the left. *)
Fixpoint split2 (a b : ascii) (s : string) : list string :=
  match s with
  | EmptyString => [""]
  | String x s' =>
      match s' with
      | EmptyString => [String x ""]
      | String y rest =>
          if Ascii.eqb x a && Ascii.eqb y b then "" :: split2 a b rest
          else cons_head x (split2 a b s')
      end
  end.

(** [s.replace(sep, new)] for the same two-character separator. *)
Fixpoint replace2 (a b : ascii) (new : string) (s : string) : string :=
  match s with
  | EmptyString => ""
  | String x s' =>
      match s' with
      | EmptyString => String x ""
      | String y rest =>
          if Ascii.eqb x a && Ascii.eqb y b then new ++ replace2 a b new rest
          else String x (replace2 a b new s')
      end
  end.

End PyStr.

(** ** [os.path] on POSIX *)

Module OsPath.

Definition sep : ascii := "/"%char.

(** [os.path.join(a, b)] (posixpath, two arguments). *)
Definition join (a b : string) : string :=
  if PyStr.startswith_char sep b then b
  else if negb (PyStr.truthy a) || PyStr.endswith_char sep a then a ++ b
  else a ++ "/" ++ b.

(** [p[:p.rfind("/") + 1]]: [p] up to and including its last separator. *)
Fixpoint head_of (p : string) : string :=
  match p with
  | EmptyString => EmptyString
  | String c rest =>
      if PyStr.has_char sep rest then String c (head_of rest)
      else if Ascii.eqb c sep then String c EmptyString
      else EmptyString
  end.

(** [s == "/" * len(s)]. *)
Fixpoint all_sep (s : string) : bool :=
  match s with
  | EmptyString => true
  | String c rest => Ascii.eqb c sep && all_sep rest
  end.

(** [s.rstrip("/")]. *)
Fixpoint rstrip_sep (s : string) : string :=
  match s with
  | EmptyString => EmptyString
  | String c rest =>
      match rstrip_sep rest with
      | EmptyString => if Ascii.eqb c sep then EmptyString else String c EmptyString
      | String _ _ as r => String c r
      end
  end.

(** [os.path.dirname(p)] (posixpath). *)
Definition dirname (p : string) : string :=
  let head := head_of p in
  if PyStr.truthy head && negb (all_sep head) then rstrip_sep head else head.

End OsPath.

(** ** Exceptions and results *)

(** The exceptions the fetcher can meet.  [FetchError] carries the [msg]
  attribute of the exception object. *)
Inductive Exc : Type :=
| FetchError (msg : string)
| ParameterError (message url : string)
| MissingParameterError (missing message : string)
| NameError (name : string)
| AttributeError (message : string)
| TypeError (message : string)
| OSError (message : string)
| OtherError (kind message : string).

Inductive Result (A : Type) : Type :=
| Ok (a : A)
| Raise (e : Exc).

Arguments Ok {A} a.
Arguments Raise {A} e.

Definition rbind {A B : Type} (m : Result A) (k : A -> Result B) : Result B :=
  match m with
  | Ok a => k a
  | Raise e => Raise e
  end.

Notation "'let+' x ':=' m 'in' k" := (rbind m (fun x => k))
  (at level 10, x name, m at level 100, k at level 200).

(** The names bound at module level when the method bodies run: the
  imports at the top of the file and the class itself.  Python raises
  [NameError] when it evaluates a name that is neither bound there nor a
  builtin ([fetch2] and [MissingParameterError] are not builtins). *)
Definition module_globals : list string :=
  ["os"; "sys"; "shutil"; "bb"; "FetchMethod"; "FetchError"; "runfetchcmd";
   "logger"; "ClearCase"].

Definition load_name (name : string) : Result unit :=
  if existsb (String.eqb name) module_globals then Ok tt
  else Raise (NameError name).

(** ** The datastore and the url data *)

(** [d.getVar(name, expand)]: [None] when the variable is unset. *)
Record DataStore : Type := { getVar : string -> bool -> option string }.

(** The [ud] object: the fields the generic fetch layer fills in ([ud_url],
  [ud_type], [ud_host], [ud_path], [ud_parm], [ud_localpath]) and the ones
  [urldata_init] assigns. *)
Record FetchData : Type := {
  ud_url : string;
  ud_type : string;
  ud_host : string;
  ud_path : string;
  ud_parm : gmap string string;
  ud_localpath : string;
  ud_proto : string;
  ud_vob : string;
  ud_module : string;
  ud_basecmd : string;
  ud_label : string;
  ud_customspec : option string;
  ud_server : string;
  ud_identifier : string;
  ud_viewname : string;
  ud_csname : string;
  ud_ccasedir : string;
  ud_viewdir : string;
  ud_configspecfile : string;
  ud_localfile : string
}.

(** [ud.identifier = v]. *)
Definition set_identifier (ud : FetchData) (v : string) : FetchData :=
  {| ud_url := ud_url ud; ud_type := ud_type ud; ud_host := ud_host ud;
     ud_path := ud_path ud; ud_parm := ud_parm ud;
     ud_localpath := ud_localpath ud; ud_proto := ud_proto ud;
     ud_vob := ud_vob ud; ud_module := ud_module ud;
     ud_basecmd := ud_basecmd ud; ud_label := ud_label ud;
     ud_customspec := ud_customspec ud; ud_server := ud_server ud;
     ud_identifier := v; ud_viewname := ud_viewname ud;
     ud_csname := ud_csname ud; ud_ccasedir := ud_ccasedir ud;
     ud_viewdir := ud_viewdir ud;
     ud_configspecfile := ud_configspecfile ud;
     ud_localfile := ud_localfile ud |}.

(** ** The file system and the trace of a run *)

Record FS : Type := {
  files : gmap string string;   (* regular files and their content *)
  dirs : gset string            (* directories *)
}.

(** What a run does that can be seen from outside: the methods entered,
  the network checks asked for and the commands handed to
  [runfetchcmd] (with their working directory). *)
Inductive Event : Type :=
| Call (method : string)
| NetCheck (cmd url : string)
| Run (cmd : string) (workdir : option string).

Record World : Type := { fs : FS; trace : list Event }.

(** Computations that read and write the world and may raise. *)
Definition M (A : Type) : Type := World -> Result A * World.

Definition ret {A : Type} (a : A) : M A := fun w => (Ok a, w).

Definition raise {A : Type} (e : Exc) : M A := fun w => (Raise e, w).

Definition bind {A B : Type} (m : M A) (k : A -> M B) : M B :=
  fun w =>
    match m w with
    | (Ok a, w') => k a w'
    | (Raise e, w') => (Raise e, w')
    end.

Notation "'let*' x ':=' m 'in' k" := (bind m (fun x => k))
  (at level 10, x name, m at level 100, k at level 200).

(** A pure computation inside [M]. *)
Definition lift {A : Type} (r : Result A) : M A := fun w => (r, w).

(** [try: m except Exception as e: h e]. *)
Definition try_except {A : Type} (m : M A) (h : Exc -> M A) : M A :=
  fun w =>
    match m w with
    | (Ok a, w') => (Ok a, w')
    | (Raise e, w') => h e w'
    end.

Definition emit (ev : Event) : M unit :=
  fun w => (Ok tt, {| fs := fs w; trace := trace w ++ [ev] |}).

Definition get_fs : M FS := fun w => (Ok (fs w), w).

(** An operation of the environment on the file system. *)
Definition on_fs {A : Type} (f : FS -> Result A * FS) : M A :=
  fun w => let '(r, fs') := f (fs w) in (r, {| fs := fs'; trace := trace w |}).

(** [os.path.exists(p)]. *)
Definition os_path_exists (p : string) (s : FS) : bool :=
  bool_decide (is_Some (files s !! p)) || bool_decide (p ∈ dirs s).

(** The directory an entry [p] is made in exists: [os.path.dirname(p)] is
    a directory, or is empty and stands for the current directory.  A path
    is known by its text. *)
Definition parent_exists (p : string) (s : FS) : bool :=
  negb (PyStr.truthy (OsPath.dirname p))
  || bool_decide (OsPath.dirname p ∈ dirs s).

(** [with open(p, 'w') as f: f.write(content)]: the file is created or
    truncated; a directory cannot be opened for writing, and a file cannot
    be created in a directory that does not exist. *)
Definition open_write (p content : string) : M unit :=
  on_fs (fun s =>
    if bool_decide (p ∈ dirs s)
    then (Raise (OSError ("Is a directory: " ++ p)), s)
    else if negb (parent_exists p s)
    then (Raise (OSError ("No such file or directory: " ++ p)), s)
    else (Ok tt, {| files := <[p := content]> (files s); dirs := dirs s |})).

(** [shutil.copyfile(src, dst)]: source and destination are told apart by
    the text of their paths. *)
Definition shutil_copyfile (src dst : string) : M unit :=
  on_fs (fun s =>
    if String.eqb src dst
    then (Raise (OSError ("same file: " ++ src)), s)
    else match files s !! src with
         | None => (Raise (OSError ("No such file or directory: " ++ src)), s)
         | Some content =>
             if bool_decide (dst ∈ dirs s)
             then (Raise (OSError ("Is a directory: " ++ dst)), s)
             else if negb (parent_exists dst s)
             then (Raise (OSError ("No such file or directory: " ++ dst)), s)
             else (Ok tt, {| files := <[dst := content]> (files s);
                             dirs := dirs s |})
         end).

(** Modelled from the spec: [bb.utils.mkdirhier] is not part of this file.
  Section 4.4: download "ensures the cache directory exists"; a regular
  file of that name is in the way. *)
Definition bb_utils_mkdirhier (p : string) : M unit :=
  on_fs (fun s =>
    if bool_decide (is_Some (files s !! p))
    then (Raise (OSError ("File exists: " ++ p)), s)
    else (Ok tt, {| files := files s; dirs := {[ p ]} ∪ dirs s |})).

(** Modelled from the spec: [bb.utils.remove] is not part of this file.
  Sections 4.4 and 7: cleanup "deletes the config spec file if present"
  and "an already-absent view or config spec file is treated as
  successful cleanup". *)
Definition bb_utils_remove (p : string) : M unit :=
  on_fs (fun s => (Ok tt, {| files := delete p (files s); dirs := dirs s |})).

(** ** The fetcher *)

(** [l.append(x)]. *)
Definition list_append {A : Type} (l : list A) (x : A) : list A :=
  (l ++ [x])%list.

Definition nl : string := String (ascii_of_nat 10) "".
Definition dquote : string := String (ascii_of_nat 34) "".

Definition default_basecmd : string := "/usr/bin/env cleartool || rcleartool".

Definition login_hint : string :=
  "Call `rcleartool login` in your console to authenticate to the clearcase server before running bitbake.".

Definition invalid_srcrev_message : string :=
  "Set a valid SRCREV for the clearcase fetcher in your recipe, e.g. SRCREV = "
  ++ dquote ++ "/main/LATEST" ++ dquote ++ " or any other label of your choice.".

(** [config_spec += line+"\n"], the body of the loop over the lines of a
    custom config spec. *)
Definition add_line (config_spec line : string) : string :=
  config_spec ++ line ++ nl.

(** The tar command line of [download]. *)
Definition tar_command (ud : FetchData) : string :=
  "tar -czf " ++ dquote ++ ud_localpath ud ++ dquote ++ " .".

Section ClearCase.

(** The collaborators of the generic fetch layer, which this file only
    calls: the command runner (command, datastore, working directory,
    files to delete on failure), the network policy check, and the text
    that [FetchError(message)] stores in its [msg] attribute. *)
Variable runfetchcmd :
  string -> DataStore -> option string -> list string -> FS -> Result string * FS.
Variable check_network_access : DataStore -> string -> string -> Result unit.
Variable fetch_error_msg : string -> string.

(** Calls of the logger ([self.debug], [logger.info], [bb.warn]) print
    values that are already computed; they are left out. *)

(** [supports]: the url type is ccrc. *)
Definition supports (ud : FetchData) (d : DataStore) : bool :=
  existsb (String.eqb (ud_type ud)) ["ccrc"].

(** [raise FetchError(message)]. *)
Definition new_FetchError (message : string) : Exc :=
  FetchError (fetch_error_msg message).

Definition run (cmd : string) (d : DataStore) (workdir : option string)
    (cleanup : list string) : M string :=
  let* _ := emit (Run cmd workdir) in
  on_fs (runfetchcmd cmd d workdir cleanup).

Definition net_check (d : DataStore) (cmd url : string) : M unit :=
  let* _ := emit (NetCheck cmd url) in
  lift (check_network_access d cmd url).

(** [urldata_init]: the fields are computed in the order of the
    assignments and stored in [ud]; the logger calls at the end only print
    them. *)
Definition urldata_init (ud : FetchData) (d : DataStore) : Result FetchData :=
  let proto :=
    match ud_parm ud !! "protocol" with
    | Some p => p
    | None => "https"
    end in
  let+ _ :=
    if negb (String.eqb proto "http" || String.eqb proto "https")
    then (let+ _ := load_name "fetch2" in
          Raise (ParameterError "Invalid protocol type" (ud_url ud)))
    else Ok tt in
  let+ vob :=
    match ud_parm ud !! "vob" with
    | Some v => Ok v
    | None =>
        let msg := ud_url ud ++ ": vob must be defined so the fetcher knows what to get." in
        let+ _ := load_name "MissingParameterError" in
        Raise (MissingParameterError "vob" msg)
    end in
  let module :=
    match ud_parm ud !! "module" with
    | Some m => m
    | None => ""
    end in
  let basecmd :=
    match getVar d "FETCHCMD_ccrc" true with
    | Some c => if PyStr.truthy c then c else default_basecmd
    | None => default_basecmd
    end in
  let+ _ :=
    match getVar d "SRCREV" true with
    | Some rev =>
        if String.eqb rev "INVALID"
        then Raise (new_FetchError invalid_srcrev_message)
        else Ok tt
    | None => Ok tt
    end in
  let label := getVar d "SRCREV" false in
  let customspec := getVar d "CCASE_CUSTOM_CONFIG_SPEC" true in
  let server := proto ++ "://" ++ ud_host ud ++ ud_path ud in
  let+ label :=
    match label with
    | Some l => Ok l
    | None => Raise (AttributeError "'NoneType' object has no attribute 'replace'")
    end in
  let identifier :=
    "clearcase-" ++ PyStr.replace_char "/" "" vob
                 ++ PyStr.replace_char "/" "." module
                 ++ "-" ++ PyStr.replace_char "/" "." label in
  let viewname := identifier ++ "-view" ++ PyStr.fmt (getVar d "DATETIME" true) in
  let csname := identifier ++ "-config-spec" in
  let+ dl_dir :=
    match getVar d "DL_DIR" true with
    | Some p => Ok p
    | None => Raise (TypeError "expected str, bytes or os.PathLike object, not NoneType")
    end in
  let ccasedir := OsPath.join dl_dir (ud_type ud) in
  let viewdir := OsPath.join ccasedir viewname in
  let configspecfile := OsPath.join ccasedir csname in
  let localfile := identifier ++ ".tar.gz" in
  let localfile := OsPath.join dl_dir localfile in
  Ok {| ud_url := ud_url ud; ud_type := ud_type ud; ud_host := ud_host ud;
        ud_path := ud_path ud; ud_parm := ud_parm ud;
        ud_localpath := ud_localpath ud; ud_proto := proto;
        ud_vob := vob; ud_module := module; ud_basecmd := basecmd;
        ud_label := label; ud_customspec := customspec;
        ud_server := server; ud_identifier := identifier;
        ud_viewname := viewname; ud_csname := csname;
        ud_ccasedir := ccasedir; ud_viewdir := viewdir;
        ud_configspecfile := configspecfile; ud_localfile := localfile |}.

(** ["rcleartool" in ud.basecmd]: the remote client. *)
Definition is_remote (ud : FetchData) : bool :=
  PyStr.contains "rcleartool" (ud_basecmd ud).

(** The [options] list that [_build_ccase_command] fills before joining
    it.  The callers pass the literals 'mkview', 'rmview' and 'setcs', for
    which [is] is equality of the text. *)
Definition ccase_options (ud : FetchData) (command : string)
    : Result (list string) :=
  let options : list string := [] in
  let options :=
    if is_remote ud then list_append options ("-server " ++ ud_server ud)
    else options in
  if String.eqb command "mkview" then
    let options :=
      if negb (is_remote ud) then list_append options "-snapshot"
      else options in
    let options := list_append options ("-tag " ++ ud_viewname ud) in
    Ok (list_append options (ud_viewdir ud))
  else if String.eqb command "rmview" then
    let options := list_append options "-force" in
    Ok (list_append options (ud_viewdir ud))
  else if String.eqb command "setcs" then
    let options := list_append options "-overwrite" in
    Ok (list_append options (ud_configspecfile ud))
  else Raise (new_FetchError ("Invalid ccase command " ++ command)).

Definition _build_ccase_command (ud : FetchData) (command : string)
    : Result string :=
  let basecmd := ud_basecmd ud ++ " " ++ command in
  let+ options := ccase_options ud command in
  Ok (basecmd ++ " " ++ PyStr.join " " options).

(** The text [_write_configspec] builds before it opens the file. *)
Definition config_spec_text (ud : FetchData) (d : DataStore) : string :=
  let config_spec := "" in
  match getVar d "CCASE_CUSTOM_CONFIG_SPEC" true with
  | Some custom_config_spec =>
      fold_left add_line (PyStr.split2 "\" "n" custom_config_spec) config_spec
  | None =>
      let config_spec := config_spec ++ "element * CHECKEDOUT" ++ nl in
      let config_spec := config_spec ++ "element * " ++ ud_label ud ++ nl in
      config_spec ++ "load " ++ ud_vob ud ++ ud_module ud ++ nl
  end.

Definition _write_configspec (ud : FetchData) (d : DataStore) : M unit :=
  let* _ := emit (Call "_write_configspec") in
  open_write (ud_configspecfile ud) (config_spec_text ud d).

Definition _remove_view (ud : FetchData) (d : DataStore) : M unit :=
  let* _ := emit (Call "_remove_view") in
  let* s := get_fs in
  if os_path_exists (ud_viewdir ud) s then
    let* cmd := lift (_build_ccase_command ud "rmview") in
    let* _ := net_check d cmd (ud_url ud) in
    let* output := run cmd d (Some (ud_ccasedir ud)) [] in
    ret tt
  else ret tt.

(** [need_update] reads the file system and assigns [ud.identifier]; the
    result is the returned flag and [ud] afterwards. *)
Definition need_update (ud : FetchData) (d : DataStore) (s : FS)
    : bool * FetchData :=
  if PyStr.contains "LATEST" (ud_label ud)
     || match ud_customspec ud with
        | Some c => PyStr.truthy c && PyStr.contains "LATEST" c
        | None => false
        end
  then (true,
        set_identifier ud
          (ud_identifier ud ++ "-" ++ PyStr.fmt (getVar d "DATETIME" true)))
  else if os_path_exists (ud_localpath ud) s then (false, ud)
  else (true, ud).

Definition supports_srcrev : bool := true.

Definition sortable_revision (ud : FetchData) (d : DataStore) (name : string)
    : bool * string :=
  (false, ud_identifier ud).

Definition clean (ud : FetchData) (d : DataStore) : M unit :=
  let* _ := emit (Call "clean") in
  let* _ := _remove_view ud d in
  bb_utils_remove (ud_configspecfile ud).

(** The [except FetchError as e] clause around the mkview command. *)
Definition mkview_handler (e : Exc) : M string :=
  match e with
  | FetchError msg =>
      if PyStr.contains "CRCLI2008E" msg
      then raise (new_FetchError (msg ++ nl ++ login_hint ++ nl))
      else raise e
  | _ => raise e
  end.

(** [download] up to and including the tar command. *)
Definition download_steps (ud : FetchData) (d : DataStore) : M unit :=
  let* _ := emit (Call "download") in
  let* _ := bb_utils_mkdirhier (ud_ccasedir ud) in
  let* _ := _write_configspec ud d in
  let* cmd := lift (_build_ccase_command ud "mkview") in
  let* _ := net_check d cmd (ud_url ud) in
  let* _ := try_except (run cmd d None []) mkview_handler in
  let* cmd := lift (_build_ccase_command ud "setcs") in
  let* _ := net_check d cmd (ud_url ud) in
  let* output := run cmd d (Some (ud_viewdir ud)) [] in
  let* _ := shutil_copyfile (ud_configspecfile ud)
              (OsPath.join (ud_viewdir ud) (ud_csname ud)) in
  let* _ := run (tar_command ud) d None [ud_localpath ud] in
  ret tt.

(** [download]: the steps above, then [self.clean(ud, d)] as the last
    statement. *)
Definition download (ud : FetchData) (d : DataStore) : M unit :=
  let* _ := download_steps ud d in
  clean ud d.

End ClearCase.

(** ** What the specification calls things *)

(** The override text with its line endings normalized: in a recipe the
  lines of CCASE_CUSTOM_CONFIG_SPEC are separated by the two characters
  backslash and n; each such separator becomes a line feed and the last
  line is ended by one. *)
Definition normalized_override (custom : string) : string :=
  PyStr.replace2 "\" "n" nl custom ++ nl.

(** The label, or the custom config spec when there is one, contains the
  floating sentinel. *)
Definition floating (ud : FetchData) : Prop :=
  PyStr.contains "LATEST" (ud_label ud) = true \/
  exists c, ud_customspec ud = Some c /\ PyStr.contains "LATEST" c = true.

(** Every run of [m] extends the trace, and only by events that satisfy
  [P]. *)
Definition emits {A : Type} (P : Event -> Prop) (m : M A) : Prop :=
  forall w, exists evs,
    trace (snd (m w)) = (trace w ++ evs)%list /\ Forall P evs.

(** The file system when [download] reaches the mkview command: the cache
  directory made and the config spec written. *)
Definition prepared (ud : FetchData) (d : DataStore) (s : FS) : FS :=
  {| files := <[ud_configspecfile ud := config_spec_text ud d]> (files s);
     dirs := {[ ud_ccasedir ud ]} ∪ dirs s |}.

(** ** A recipe and an environment to run the fetcher on *)

Module Sample.

(** A datastore backed by a table; expansion leaves the values as they
    are. *)
Definition datastore (m : gmap string string) : DataStore :=
  {| getVar := fun name _ => m !! name |}.

(** [ud] as the generic layer hands it to [urldata_init]. *)
Definition fresh_ud (url type host path : string)
    (parm : gmap string string) : FetchData :=
  {| ud_url := url; ud_type := type; ud_host := host; ud_path := path;
     ud_parm := parm; ud_localpath := ""; ud_proto := ""; ud_vob := "";
     ud_module := ""; ud_basecmd := ""; ud_label := "";
     ud_customspec := None; ud_server := ""; ud_identifier := "";
     ud_viewname := ""; ud_csname := ""; ud_ccasedir := "";
     ud_viewdir := ""; ud_configspecfile := ""; ud_localfile := "" |}.

(** The generic layer's [ud.localpath = ...] after [urldata_init]. *)
Definition with_localpath (ud : FetchData) : FetchData :=
  {| ud_url := ud_url ud; ud_type := ud_type ud; ud_host := ud_host ud;
     ud_path := ud_path ud; ud_parm := ud_parm ud;
     ud_localpath := ud_localfile ud; ud_proto := ud_proto ud;
     ud_vob := ud_vob ud; ud_module := ud_module ud;
     ud_basecmd := ud_basecmd ud; ud_label := ud_label ud;
     ud_customspec := ud_customspec ud; ud_server := ud_server ud;
     ud_identifier := ud_identifier ud; ud_viewname := ud_viewname ud;
     ud_csname := ud_csname ud; ud_ccasedir := ud_ccasedir ud;
     ud_viewdir := ud_viewdir ud;
     ud_configspecfile := ud_configspecfile ud;
     ud_localfile := ud_localfile ud |}.

Definition fetcher_failure (message : string) : string :=
  "Fetcher failure: " ++ message.

Definition network_allowed (d : DataStore) (cmd url : string) : Result unit :=
  Ok tt.

(** SRC_URI = "ccrc://cc.example.org/ccrc;vob=/vob1;module=/mod1",
    SRCREV = "rel1". *)
Definition d_rel1 : DataStore :=
  datastore (<["SRCREV" := "rel1"]> (<["DL_DIR" := "/dl"]>
            (<["DATETIME" := "20240101120000"]> ∅))).

Definition d_latest : DataStore :=
  datastore (<["SRCREV" := "/main/LATEST"]> (<["DL_DIR" := "/dl"]>
            (<["DATETIME" := "20240101120000"]> ∅))).

Definition d_custom : DataStore :=
  datastore (<["SRCREV" := "rel1"]> (<["DL_DIR" := "/dl"]>
            (<["DATETIME" := "20240101120000"]>
            (<["CCASE_CUSTOM_CONFIG_SPEC" :=
                 "element * CHECKEDOUT\nelement * /main/7\nload /other"]> ∅)))).

Definition ud_uri : FetchData :=
  fresh_ud "ccrc://cc.example.org/ccrc;vob=/vob1;module=/mod1" "ccrc"
           "cc.example.org" "/ccrc"
           (<["vob" := "/vob1"]> (<["module" := "/mod1"]> ∅)).

Definition ud_no_vob : FetchData :=
  fresh_ud "ccrc://cc.example.org/ccrc;module=/mod1" "ccrc"
           "cc.example.org" "/ccrc" (<["module" := "/mod1"]> ∅).

Definition ud_ftp : FetchData :=
  fresh_ud "ccrc://cc.example.org/ccrc;vob=/vob1;protocol=ftp" "ccrc"
           "cc.example.org" "/ccrc"
           (<["vob" := "/vob1"]> (<["protocol" := "ftp"]> ∅)).

Definition init_or (ud : FetchData) (d : DataStore) : FetchData :=
  match urldata_init fetcher_failure ud d with
  | Ok ud' => with_localpath ud'
  | Raise _ => ud
  end.

Definition ud_rel1 : FetchData := init_or ud_uri d_rel1.
Definition ud_latest : FetchData := init_or ud_uri d_latest.

(** The local client instead of the default: FETCHCMD_ccrc = "cleartool". *)
Definition ud_local : FetchData :=
  init_or ud_uri
    (datastore (<["SRCREV" := "rel1"]> (<["DL_DIR" := "/dl"]>
               (<["FETCHCMD_ccrc" := "cleartool"]> ∅)))).

(** A client that does what the commands ask on the file system of [ud]:
    mkview makes the view directory, rmview removes it, tar writes the
    archive. *)
Definition client (ud : FetchData) (cmd : string) (d : DataStore)
    (workdir : option string) (cleanup : list string) (s : FS)
    : Result string * FS :=
  if PyStr.contains " mkview " cmd then
    (Ok "Created view.",
     {| files := files s; dirs := {[ ud_viewdir ud ]} ∪ dirs s |})
  else if PyStr.contains " rmview " cmd then
    (Ok "Removed view.",
     {| files := files s; dirs := dirs s ∖ {[ ud_viewdir ud ]} |})
  else if PyStr.contains "tar -czf" cmd then
    (Ok "",
     {| files := <[ud_localpath ud := "archive"]> (files s); dirs := dirs s |})
  else (Ok "", s).

Definition login_required : string :=
  "Fetcher failure: CRCLI2008E Login is required to run the command.".

(** A remote client that has not been logged in: mkview is refused. *)
Definition client_logged_out (ud : FetchData) (cmd : string) (d : DataStore)
    (workdir : option string) (cleanup : list string) (s : FS)
    : Result string * FS :=
  if PyStr.contains " mkview " cmd then (Raise (FetchError login_required), s)
  else client ud cmd d workdir cleanup s.

Definition tag_in_use : string :=
  "Fetcher failure: cleartool: Error: A view tag with this name already exists.".

(** A client whose mkview fails for another reason. *)
Definition client_tag_in_use (ud : FetchData) (cmd : string) (d : DataStore)
    (workdir : option string) (cleanup : list string) (s : FS)
    : Result string * FS :=
  if PyStr.contains " mkview " cmd then (Raise (FetchError tag_in_use), s)
  else client ud cmd d workdir cleanup s.

Definition setcs_refused : string :=
  "Fetcher failure: cleartool: Error: Unable to load the config spec.".

(** A client that makes the view but fails to apply the config spec. *)
Definition client_setcs_fails (ud : FetchData) (cmd : string) (d : DataStore)
    (workdir : option string) (cleanup : list string) (s : FS)
    : Result string * FS :=
  if PyStr.contains " setcs " cmd then (Raise (FetchError setcs_refused), s)
  else client ud cmd d workdir cleanup s.

Definition empty_world : World :=
  {| fs := {| files := ∅; dirs := ∅ |}; trace := [] |}.

(** The download directory with the ccase directory in it, as
    [bb.utils.mkdirhier] leaves it. *)
Definition cache_world : World :=
  {| fs := {| files := ∅; dirs := {[ ud_ccasedir ud_rel1 ]} |}; trace := [] |}.

(** A fetch that goes through. *)
Definition run_ok : Result unit * World :=
  download (client ud_rel1) network_allowed fetcher_failure
    ud_rel1 d_rel1 empty_world.

(** A fetch in which setcs fails. *)
Definition run_setcs_fails : Result unit * World :=
  download (client_setcs_fails ud_rel1) network_allowed fetcher_failure
    ud_rel1 d_rel1 empty_world.

(** A fetch in which mkview asks for a login. *)
Definition run_logged_out : Result unit * World :=
  download (client_logged_out ud_rel1) network_allowed fetcher_failure
    ud_rel1 d_rel1 empty_world.

(** The mkview command line of the recipe. *)
Definition mkview_cmd : string :=
  Eval vm_compute in
    match _build_ccase_command fetcher_failure ud_rel1 "mkview" with
    | Ok cmd => cmd
    | Raise _ => ""
    end.

(** The state in which [run_ok] reaches [clean]. *)
Definition after_tar : World :=
  snd (download_steps (client ud_rel1) network_allowed fetcher_failure
         ud_rel1 d_rel1 empty_world).

(** [clean] once more after [run_ok]. *)
Definition run_clean_again : Result unit * World :=
  clean (client ud_rel1) network_allowed fetcher_failure
    ud_rel1 d_rel1 (snd run_ok).

End Sample.

(** The protocol parameter is absent, http or https. *)
Definition protocol_ok (ud : FetchData) : Prop :=
  ud_parm ud !! "protocol" = None \/
  ud_parm ud !! "protocol" = Some "http" \/
  ud_parm ud !! "protocol" = Some "https".

(** What [os.path.join] puts between its two arguments when the second is
    not absolute. *)
Definition join_separator (a : string) : string :=
  if negb (PyStr.truthy a) || PyStr.endswith_char OsPath.sep a then "" else "/".

(** ** Traces in which every ClearCase command is checked *)

(** A piece of trace in which every network check has passed and is
    followed at once by the command it was asked for, and in which no other
    command is handed to [runfetchcmd] than these and the command [tar]. *)
Inductive all_checked (policy : string -> string -> Result unit) (tar : string)
    : list Event -> Prop :=
| checked_nil : all_checked policy tar []
| checked_call (method : string) (evs : list Event) :
    all_checked policy tar evs -> all_checked policy tar (Call method :: evs)
| checked_run (cmd url : string) (workdir : option string) (evs : list Event) :
    policy cmd url = Ok tt ->
    all_checked policy tar evs ->
    all_checked policy tar (NetCheck cmd url :: Run cmd workdir :: evs)
| checked_tar (workdir : option string) (evs : list Event) :
    all_checked policy tar evs -> all_checked policy tar (Run tar workdir :: evs).

(** Such a piece, or such a piece ended by a network check that was
    refused: nothing comes after the refusal. *)
Inductive guarded (policy : string -> string -> Result unit) (tar : string)
    : list Event -> Prop :=
| guarded_passed (evs : list Event) :
    all_checked policy tar evs -> guarded policy tar evs
| guarded_refused (evs : list Event) (cmd url : string) (e : Exc) :
    all_checked policy tar evs ->
    policy cmd url = Raise e ->
    guarded policy tar (evs ++ [NetCheck cmd url])%list.

(** Every run of [m] extends the trace by a guarded piece, and a run that
    returns has passed all its checks. *)
Definition runs_guarded {A : Type}
    (policy : string -> string -> Result unit) (tar : string) (m : M A) : Prop :=
  forall w, exists evs,
    trace (snd (m w)) = (trace w ++ evs)%list /\
    guarded policy tar evs /\
    (forall a, fst (m w) = Ok a -> all_checked policy tar evs).

(** ** More recipes and environments *)

Module Scenario.

(** SRCREV left at the value BitBake gives it when the recipe sets none. *)
Definition d_invalid : DataStore :=
  Sample.datastore (<["SRCREV" := "INVALID"]> (<["DL_DIR" := "/dl"]> ∅)).

(** The recipe of [Sample.d_rel1], built one second later. *)
Definition d_rel1_later : DataStore :=
  Sample.datastore (<["SRCREV" := "rel1"]> (<["DL_DIR" := "/dl"]>
                   (<["DATETIME" := "20240101120001"]> ∅))).

(** The same vob, module and label behind another server and in another
    download directory. *)
Definition ud_other_server : FetchData :=
  Sample.fresh_ud "ccrc://cc2.example.org/other;vob=/vob1;module=/mod1;protocol=http"
    "ccrc" "cc2.example.org" "/other"
    (<["vob" := "/vob1"]> (<["module" := "/mod1"]>
    (<["protocol" := "http"]> ∅))).

Definition d_other_dir : DataStore :=
  Sample.datastore (<["SRCREV" := "rel1"]> (<["DL_DIR" := "/srv/downloads/"]>
                   (<["DATETIME" := "20250505050505"]> ∅))).

(** [ud] when [urldata_init] has returned. *)
Definition initialised (ud : FetchData) (d : DataStore) : FetchData :=
  match urldata_init Sample.fetcher_failure ud d with
  | Ok ud' => ud'
  | Raise _ => ud
  end.

(** BB_NO_NETWORK: every access is refused. *)
Definition network_refused (d : DataStore) (cmd url : string) : Result unit :=
  Raise (OtherError "NetworkAccess" ("Network access disabled: " ++ cmd)).

Definition rmview_refused : string :=
  "Fetcher failure: cleartool: Error: Unable to remove the view.".

(** A client whose rmview fails. *)
Definition client_rmview_fails (ud : FetchData) (cmd : string) (d : DataStore)
    (workdir : option string) (cleanup : list string) (s : FS)
    : Result string * FS :=
  if PyStr.contains " rmview " cmd then (Raise (FetchError rmview_refused), s)
  else Sample.client ud cmd d workdir cleanup s.

(** The rmview command line of the recipe. *)
Definition rmview_cmd : string :=
  Eval vm_compute in
    match _build_ccase_command Sample.fetcher_failure Sample.ud_rel1 "rmview" with
    | Ok cmd => cmd
    | Raise _ => ""
    end.

(** A download directory in which an earlier fetch left its view and its
    config spec. *)
Definition world_with_view : World :=
  {| fs := {| files := {[ ud_configspecfile Sample.ud_rel1 := "element * CHECKEDOUT" ]};
              dirs := {[ ud_ccasedir Sample.ud_rel1; ud_viewdir Sample.ud_rel1 ]} |};
     trace := [] |}.

(** What rmview of [Sample.client] makes of it. *)
Definition fs_view_removed : FS :=
  snd (Sample.client Sample.ud_rel1 rmview_cmd Sample.d_rel1
         (Some (ud_ccasedir Sample.ud_rel1)) [] (fs world_with_view)).

(** A download directory that already holds the archive. *)
Definition fs_with_archive : FS :=
  {| files := {[ ud_localpath Sample.ud_rel1 := "archive" ]};
     dirs := {[ "/dl" ]} |}.

End Scenario.

(** * Properties *)

(** ** Strings *)

Section StringFacts.

Lemma append_nil_r (s : string) : s ++ "" = s.
Proof. induction s as [|c s IH]; simpl; [reflexivity | now rewrite IH]. Qed.

Lemma append_assoc (a b c : string) : (a ++ b) ++ c = a ++ b ++ c.
Proof. induction a as [|x a IH]; simpl; [reflexivity | now rewrite IH]. Qed.

Lemma length_append (a b : string) :
  String.length (a ++ b) = String.length a + String.length b.
Proof. induction a as [|x a IH]; simpl; [reflexivity | now rewrite IH]. Qed.

Lemma has_char_append (c : ascii) (a b : string) :
  PyStr.has_char c (a ++ b) = PyStr.has_char c a || PyStr.has_char c b.
Proof.
  induction a as [|x a IH]; simpl; [reflexivity|].
  rewrite IH. now rewrite orb_assoc.
Qed.

Lemma has_char_replace (c : ascii) (new s : string) :
  PyStr.has_char c new = false ->
  PyStr.has_char c (PyStr.replace_char c new s) = false.
Proof.
  intros Hnew. induction s as [|x s IH]; simpl; [reflexivity|].
  destruct (Ascii.eqb x c) eqn:E.
  - rewrite has_char_append, Hnew, IH. reflexivity.
  - simpl. rewrite E, IH. reflexivity.
Qed.

Lemma prefix_iff (p s : string) :
  String.prefix p s = true <-> exists t, s = p ++ t.
Proof.
  revert s. induction p as [|x p IH]; intros s.
  - destruct s; simpl; split; intros; eauto.
  - destruct s as [|y s]; simpl.
    + split; [discriminate | intros [t Ht]; discriminate].
    + destruct (ascii_dec x y) as [->|Hne].
      * rewrite IH. split; intros [t Ht]; exists t; congruence.
      * split; [discriminate | intros [t Ht]; congruence].
Qed.

(** [needle in hay] holds exactly when [hay] is [needle] with something
    before and something after it. *)
Lemma contains_iff (needle hay : string) :
  PyStr.contains needle hay = true <->
  exists before after, hay = before ++ needle ++ after.
Proof.
  induction hay as [|y hay IH].
  - cbn [PyStr.contains]. rewrite orb_false_r, prefix_iff. split.
    + intros [t Ht]. exists "", t. exact Ht.
    + intros [b [a Hba]]. destruct b; [eauto | discriminate].
  - cbn [PyStr.contains]. rewrite orb_true_iff, prefix_iff, IH. split.
    + intros [[t Ht] | [b [a Hba]]].
      * exists "", t. exact Ht.
      * exists (String y b), a. simpl. now rewrite Hba.
    + intros [b [a Hba]]. destruct b as [|x b].
      * left. exists a. exact Hba.
      * right. exists b, a. simpl in Hba. congruence.
Qed.

Lemma contains_self_framed (before s after : string) :
  PyStr.contains s (before ++ s ++ after) = true.
Proof. apply contains_iff. eauto. Qed.

Lemma contains_trans (a b c : string) :
  PyStr.contains a b = true -> PyStr.contains b c = true ->
  PyStr.contains a c = true.
Proof.
  rewrite !contains_iff. intros [p [q ->]] [p' [q' ->]].
  exists (p' ++ p), (q ++ q'). now rewrite !append_assoc.
Qed.

Lemma contains_nonempty (needle hay : string) :
  PyStr.truthy needle = true -> PyStr.contains needle hay = true ->
  PyStr.truthy hay = true.
Proof.
  intros Hn. rewrite contains_iff. intros [b [a ->]].
  destruct b; [destruct needle; [discriminate | reflexivity] | reflexivity].
Qed.

End StringFacts.

(** ** The string operations on the values of the recipe *)

Example replace_vob : PyStr.replace_char "/" "" "/vob1" = "vob1".
Proof. reflexivity. Qed.

Example replace_module : PyStr.replace_char "/" "." "/mod1" = ".mod1".
Proof. reflexivity. Qed.

Example split_escape :
  PyStr.split2 "\" "n" "element * CHECKEDOUT\nload /v" =
  ["element * CHECKEDOUT"; "load /v"].
Proof. reflexivity. Qed.

Example split_empty : PyStr.split2 "\" "n" "" = [""].
Proof. reflexivity. Qed.

Example split_trailing : PyStr.split2 "\" "n" "a\n" = ["a"; ""].
Proof. reflexivity. Qed.

Example contains_latest : PyStr.contains "LATEST" "/main/LATEST" = true.
Proof. reflexivity. Qed.

Example join_rel : OsPath.join "/dl" "ccrc" = "/dl/ccrc".
Proof. reflexivity. Qed.

Example join_abs : OsPath.join "/dl" "/abs" = "/abs".
Proof. reflexivity. Qed.

Example join_slash : OsPath.join "/dl/" "ccrc" = "/dl/ccrc".
Proof. reflexivity. Qed.

Example dirname_file :
  OsPath.dirname "/dl/ccrc/clearcase-vob1.mod1-rel1-config-spec" = "/dl/ccrc".
Proof. reflexivity. Qed.

Example dirname_plain : OsPath.dirname "config-spec" = "".
Proof. reflexivity. Qed.

Example dirname_root : OsPath.dirname "/config-spec" = "/".
Proof. reflexivity. Qed.

Example dirname_double : OsPath.dirname "a//b" = "a".
Proof. reflexivity. Qed.

Example dirname_trailing : OsPath.dirname "/a/b/" = "/a/b".
Proof. reflexivity. Qed.

(** ** Splitting and joining the lines of a config spec *)

Section Lines.

Variables a b : ascii.

Lemma split2_step (x y : ascii) (rest : string) :
  PyStr.split2 a b (String x (String y rest)) =
  if Ascii.eqb x a && Ascii.eqb y b then "" :: PyStr.split2 a b rest
  else PyStr.cons_head x (PyStr.split2 a b (String y rest)).
Proof. reflexivity. Qed.

Lemma replace2_step (new : string) (x y : ascii) (rest : string) :
  PyStr.replace2 a b new (String x (String y rest)) =
  if Ascii.eqb x a && Ascii.eqb y b then new ++ PyStr.replace2 a b new rest
  else String x (PyStr.replace2 a b new (String y rest)).
Proof. reflexivity. Qed.

Lemma split2_not_nil (s : string) : PyStr.split2 a b s <> [].
Proof.
  assert (H : PyStr.split2 a b s <> [] /\
              forall x, PyStr.split2 a b (String x s) <> []).
  { induction s as [|y s [IH1 IH2]].
    - split; [|intros x]; discriminate.
    - split; [apply IH2|]. intros x. simpl.
      destruct (Ascii.eqb x a && Ascii.eqb y b); [discriminate|].
      specialize (IH2 y). simpl in IH2.
      destruct s as [|z s]; [discriminate|].
      destruct (Ascii.eqb y a && Ascii.eqb z b); [discriminate|].
      destruct (PyStr.cons_head _ _); [contradiction | discriminate]. }
  apply H.
Qed.

Lemma add_lines_from (l : list string) (acc : string) :
  fold_left add_line l acc = acc ++ fold_left add_line l "".
Proof.
  revert acc. induction l as [|x l IH]; intros acc; simpl.
  - now rewrite append_nil_r.
  - rewrite IH. rewrite (IH (add_line "" x)). unfold add_line. simpl.
    now rewrite !append_assoc.
Qed.

Lemma add_lines_cons_head (x : ascii) (l : list string) :
  l <> [] ->
  fold_left add_line (PyStr.cons_head x l) "" =
  String x (fold_left add_line l "").
Proof.
  destruct l as [|p ps]; [contradiction|]. intros _. simpl.
  rewrite add_lines_from. rewrite (add_lines_from ps (add_line "" p)).
  reflexivity.
Qed.

(** Adding the pieces of the split back, each followed by a line feed,
    gives the text with the separators replaced and one more line feed. *)
Lemma add_lines_split2 (s : string) :
  fold_left add_line (PyStr.split2 a b s) "" = PyStr.replace2 a b nl s ++ nl.
Proof.
  assert (H : fold_left add_line (PyStr.split2 a b s) "" =
              PyStr.replace2 a b nl s ++ nl /\
              forall x, fold_left add_line (PyStr.split2 a b (String x s)) "" =
                        PyStr.replace2 a b nl (String x s) ++ nl).
  { induction s as [|y s [IH1 IH2]].
    - split; [|intros x]; reflexivity.
    - split; [apply IH2|]. intros x.
      rewrite split2_step, replace2_step.
      destruct (Ascii.eqb x a && Ascii.eqb y b).
      + cbn [fold_left]. rewrite add_lines_from, IH1.
        unfold add_line. simpl. rewrite ?append_assoc. reflexivity.
      + rewrite add_lines_cons_head by apply split2_not_nil.
        rewrite IH2. reflexivity. }
  apply H.
Qed.

End Lines.

(** A text without the separator is left as it is by the replacement. *)
Lemma replace2_without_separator (new s : string) :
  PyStr.contains "\n" s = false -> PyStr.replace2 "\" "n" new s = s.
Proof.
  assert (H : (PyStr.contains "\n" s = false ->
               PyStr.replace2 "\" "n" new s = s) /\
              forall x, PyStr.contains "\n" (String x s) = false ->
                        PyStr.replace2 "\" "n" new (String x s) = String x s).
  { induction s as [|y s [IH1 IH2]].
    - split; [|intros x]; reflexivity.
    - split; [apply IH2|]. intros x Hx.
      cbn [PyStr.contains] in Hx. apply orb_false_iff in Hx as [Hp Hrest].
      rewrite replace2_step.
      destruct (Ascii.eqb_spec x "\") as [->|Hx'];
        [destruct (Ascii.eqb_spec y "n") as [->|Hy']|].
      + destruct s; simpl in Hp; discriminate.
      + cbn [andb]. f_equal. apply IH2. exact Hrest.
      + cbn [andb]. f_equal. apply IH2. exact Hrest. }
  apply H.
Qed.

(** ** Identity and derived paths *)

Section Identity.

Variable fetch_error_msg : string -> string.

Ltac step_init H :=
  repeat match type of H with
    | rbind ?m _ = Ok _ =>
        let E := fresh "E" in destruct m eqn:E; cbn [rbind] in H;
        [|discriminate H]
    | (let _ := _ in _) = Ok _ => cbv zeta in H
    end.

(** What [urldata_init] stores when it returns. *)
Lemma urldata_init_fields (ud ud' : FetchData) (d : DataStore) :
  urldata_init fetch_error_msg ud d = Ok ud' ->
  exists dl_dir,
    getVar d "DL_DIR" true = Some dl_dir /\
    getVar d "SRCREV" false = Some (ud_label ud') /\
    ud_parm ud !! "vob" = Some (ud_vob ud') /\
    ud_identifier ud' =
      "clearcase-" ++ PyStr.replace_char "/" "" (ud_vob ud')
                   ++ PyStr.replace_char "/" "." (ud_module ud')
                   ++ "-" ++ PyStr.replace_char "/" "." (ud_label ud') /\
    ud_viewname ud' =
      ud_identifier ud' ++ "-view" ++ PyStr.fmt (getVar d "DATETIME" true) /\
    ud_csname ud' = ud_identifier ud' ++ "-config-spec" /\
    ud_ccasedir ud' = OsPath.join dl_dir (ud_type ud) /\
    ud_viewdir ud' = OsPath.join (ud_ccasedir ud') (ud_viewname ud') /\
    ud_configspecfile ud' = OsPath.join (ud_ccasedir ud') (ud_csname ud') /\
    ud_localfile ud' = OsPath.join dl_dir (ud_identifier ud' ++ ".tar.gz") /\
    ud_localpath ud' = ud_localpath ud.
Proof.
  unfold urldata_init. intros H. cbv zeta in H. step_init H.
  destruct (ud_parm ud !! "vob") as [vob|] eqn:Evob; [|discriminate].
  destruct (getVar d "SRCREV" false) as [label|] eqn:Elabel; [|discriminate].
  destruct (getVar d "DL_DIR" true) as [dl|] eqn:Edl; [|discriminate].
  injection E0 as <-. injection E2 as <-. injection E3 as <-.
  injection H as <-. exists dl. cbn. repeat split; reflexivity.
Qed.

Lemma identifier_has_no_separator (vob module label : string) :
  PyStr.has_char OsPath.sep
    ("clearcase-" ++ PyStr.replace_char "/" "" vob
                  ++ PyStr.replace_char "/" "." module
                  ++ "-" ++ PyStr.replace_char "/" "." label) = false.
Proof.
  unfold OsPath.sep.
  rewrite !has_char_append, !has_char_replace by reflexivity. reflexivity.
Qed.

(** C2, as amended: for vob="/vob1", module="/mod1", label="rel1",
    [urldata_init] returns with the identifier "clearcase-vob1.mod1-rel1"
    (the "/" of the module becomes a ".") and the archive path
    [os.path.join(cacheDir, "clearcase-vob1.mod1-rel1.tar.gz")]; and
    whatever vob, module and label are, the identifier it computes
    contains no "/". *)
Theorem urldata_init_identifier :
  (forall (ud : FetchData) (d : DataStore) (cacheDir : string),
      ud_parm ud !! "vob" = Some "/vob1" ->
      ud_parm ud !! "module" = Some "/mod1" ->
      getVar d "SRCREV" false = Some "rel1" ->
      getVar d "SRCREV" true <> Some "INVALID" ->
      getVar d "DL_DIR" true = Some cacheDir ->
      ud_parm ud !! "protocol" = None \/
      ud_parm ud !! "protocol" = Some "http" \/
      ud_parm ud !! "protocol" = Some "https" ->
      exists ud',
        urldata_init fetch_error_msg ud d = Ok ud' /\
        ud_identifier ud' = "clearcase-vob1.mod1-rel1" /\
        ud_localfile ud' =
          OsPath.join cacheDir "clearcase-vob1.mod1-rel1.tar.gz") /\
  (forall (ud ud' : FetchData) (d : DataStore),
      urldata_init fetch_error_msg ud d = Ok ud' ->
      PyStr.has_char OsPath.sep (ud_identifier ud') = false).
Proof.
  split.
  - intros ud d cacheDir Hvob Hmod Hlabel Hrev Hdl Hproto.
    unfold urldata_init. rewrite Hvob, Hmod, Hlabel, Hdl.
    assert (Hsrc : match getVar d "SRCREV" true with
                   | Some rev =>
                       if String.eqb rev "INVALID"
                       then Raise (new_FetchError fetch_error_msg
                                     invalid_srcrev_message)
                       else Ok tt
                   | None => Ok tt
                   end = Ok tt).
    { destruct (getVar d "SRCREV" true) as [rev|]; [|reflexivity].
      destruct (String.eqb_spec rev "INVALID") as [->|_];
        [contradiction | reflexivity]. }
    rewrite Hsrc.
    destruct Hproto as [-> | [-> | ->]]; cbn; eexists;
      (split; [reflexivity | split; reflexivity]).
  - intros ud ud' d H. apply urldata_init_fields in H.
    destruct H as (dl & _ & _ & _ & -> & _).
    apply identifier_has_no_separator.
Qed.

(** Without a vob parameter the fetcher evaluates the unbound name
    [MissingParameterError]; with a protocol other than http and https it
    evaluates the unbound name [fetch2]. *)
Lemma urldata_init_unbound_names (ud : FetchData) (d : DataStore) :
  (forall p, ud_parm ud !! "protocol" = Some p ->
             p <> "http" -> p <> "https" ->
             urldata_init fetch_error_msg ud d = Raise (NameError "fetch2")) /\
  (ud_parm ud !! "protocol" = None -> ud_parm ud !! "vob" = None ->
   urldata_init fetch_error_msg ud d =
     Raise (NameError "MissingParameterError")).
Proof.
  split.
  - intros p Hp H1 H2. unfold urldata_init. rewrite Hp.
    apply String.eqb_neq in H1, H2. rewrite H1, H2. reflexivity.
  - intros Hp Hv. unfold urldata_init. rewrite Hp, Hv. reflexivity.
Qed.

(** C3: at a descriptor without vob, and at one with protocol=ftp, what
    [urldata_init] raises is a [NameError], not a parameter error. *)
Theorem urldata_init_raises_NameError :
  urldata_init fetch_error_msg Sample.ud_no_vob Sample.d_rel1 =
    Raise (NameError "MissingParameterError") /\
  urldata_init fetch_error_msg Sample.ud_ftp Sample.d_rel1 =
    Raise (NameError "fetch2").
Proof. split; vm_compute; reflexivity. Qed.

End Identity.

(** C2, witness: the recipe of the module documentation. *)
Lemma urldata_init_identifier_witness :
  exists ud',
    urldata_init Sample.fetcher_failure Sample.ud_uri Sample.d_rel1 = Ok ud' /\
    ud_identifier ud' = "clearcase-vob1.mod1-rel1" /\
    ud_localfile ud' = OsPath.join "/dl" "clearcase-vob1.mod1-rel1.tar.gz".
Proof.
  apply (proj1 (urldata_init_identifier Sample.fetcher_failure)
           Sample.ud_uri Sample.d_rel1 "/dl").
  - reflexivity.
  - reflexivity.
  - reflexivity.
  - vm_compute. discriminate.
  - reflexivity.
  - left. reflexivity.
Defined.

(** C2, as the specification states it: at vob="/vob1", module="/mod1",
  label="rel1" the identifier is not "clearcase-vob1mod1-rel1". *)
Lemma urldata_init_identifier_counterexample :
  exists ud',
    urldata_init Sample.fetcher_failure Sample.ud_uri Sample.d_rel1 = Ok ud' /\
    ud_vob ud' = "/vob1" /\ ud_module ud' = "/mod1" /\ ud_label ud' = "rel1" /\
    ud_identifier ud' <> "clearcase-vob1mod1-rel1" /\
    ud_localfile ud' <> "/dl/clearcase-vob1mod1-rel1.tar.gz".
Proof.
  eexists. split; [vm_compute; reflexivity|].
  repeat split; try reflexivity; cbn; discriminate.
Qed.

(** ** Floating labels *)

Section Floating.

Lemma floating_condition (ud : FetchData) :
  floating ud ->
  PyStr.contains "LATEST" (ud_label ud)
  || match ud_customspec ud with
     | Some c => PyStr.truthy c && PyStr.contains "LATEST" c
     | None => false
     end = true.
Proof.
  intros [Hl | [c [Hc Hin]]].
  - rewrite Hl. reflexivity.
  - rewrite Hc, Hin, (contains_nonempty "LATEST" c) by (reflexivity || assumption).
    apply orb_true_r.
Qed.

Lemma need_update_floating (ud : FetchData) (d : DataStore) (s : FS) :
  floating ud ->
  need_update ud d s =
    (true,
     set_identifier ud
       (ud_identifier ud ++ "-" ++ PyStr.fmt (getVar d "DATETIME" true))).
Proof.
  intros H. unfold need_update. rewrite (floating_condition ud H). reflexivity.
Qed.

Lemma floating_set_identifier (ud : FetchData) (v : string) :
  floating ud -> floating (set_identifier ud v).
Proof. intros H. exact H. Qed.

Lemma append_longer (a b : string) : PyStr.truthy b = true -> a ++ b <> a.
Proof.
  intros Hb Heq. apply (f_equal String.length) in Heq.
  rewrite length_append in Heq. destruct b; [discriminate|]. simpl in Heq. lia.
Qed.

(** C4: when [need_update] meets the floating sentinel it returns true and
    appends the timestamp to [ud.identifier] only: viewname, csname,
    configspecfile, localfile (and viewdir, ccasedir, localpath) keep the
    values [urldata_init] gave them, so [download] afterwards is the same
    computation as before, with the same tar command line, and the archive
    path is still the one built from the identifier without timestamp. *)
Theorem need_update_floating_frame (ud : FetchData) (d : DataStore) (s : FS) :
  floating ud ->
  exists ud',
    need_update ud d s = (true, ud') /\
    ud_identifier ud' =
      ud_identifier ud ++ "-" ++ PyStr.fmt (getVar d "DATETIME" true) /\
    ud_identifier ud' <> ud_identifier ud /\
    ud_viewname ud' = ud_viewname ud /\
    ud_csname ud' = ud_csname ud /\
    ud_configspecfile ud' = ud_configspecfile ud /\
    ud_localfile ud' = ud_localfile ud /\
    ud_viewdir ud' = ud_viewdir ud /\
    ud_ccasedir ud' = ud_ccasedir ud /\
    ud_localpath ud' = ud_localpath ud /\
    tar_command ud' = tar_command ud /\
    (forall runfetchcmd check_network_access fetch_error_msg d',
        download runfetchcmd check_network_access fetch_error_msg ud' d' =
        download runfetchcmd check_network_access fetch_error_msg ud d') /\
    (forall fetch_error_msg ud0 d0,
        urldata_init fetch_error_msg ud0 d0 = Ok ud ->
        exists dl_dir,
          getVar d0 "DL_DIR" true = Some dl_dir /\
          ud_localfile ud' =
            OsPath.join dl_dir (ud_identifier ud ++ ".tar.gz")).
Proof.
  intros H. eexists. split; [apply need_update_floating; exact H|].
  cbn. repeat split; try reflexivity.
  - apply append_longer. reflexivity.
  - intros fm ud0 d0 Hinit. apply urldata_init_fields in Hinit.
    destruct Hinit as (dl & Hdl & _ & _ & _ & _ & _ & _ & _ & _ & Hlf & _).
    exists dl. split; assumption.
Qed.

(** C7: with the floating sentinel in the label, or in the custom config
    spec when there is one, two [need_update] calls in a row on the same
    [ud] both return true, and the identifier after the second differs
    from the identifier after the first. *)
Theorem need_update_floating_twice
    (ud : FetchData) (d1 d2 : DataStore) (s1 s2 : FS) :
  floating ud ->
  exists ud1 ud2,
    need_update ud d1 s1 = (true, ud1) /\
    need_update ud1 d2 s2 = (true, ud2) /\
    ud_identifier ud2 <> ud_identifier ud1.
Proof.
  intros H. do 2 eexists. split; [apply need_update_floating; exact H|].
  split.
  - apply need_update_floating. apply floating_set_identifier. exact H.
  - cbn. apply append_longer. reflexivity.
Qed.

End Floating.

(** C4, witness: SRCREV = "/main/LATEST". *)
Lemma need_update_floating_frame_witness :
  exists ud',
    need_update Sample.ud_latest Sample.d_latest (fs Sample.empty_world) =
      (true, ud') /\
    ud_identifier ud' =
      ud_identifier Sample.ud_latest ++ "-" ++
      PyStr.fmt (getVar Sample.d_latest "DATETIME" true) /\
    ud_identifier ud' <> ud_identifier Sample.ud_latest /\
    ud_viewname ud' = ud_viewname Sample.ud_latest /\
    ud_csname ud' = ud_csname Sample.ud_latest /\
    ud_configspecfile ud' = ud_configspecfile Sample.ud_latest /\
    ud_localfile ud' = ud_localfile Sample.ud_latest /\
    ud_viewdir ud' = ud_viewdir Sample.ud_latest /\
    ud_ccasedir ud' = ud_ccasedir Sample.ud_latest /\
    ud_localpath ud' = ud_localpath Sample.ud_latest /\
    tar_command ud' = tar_command Sample.ud_latest /\
    (forall runfetchcmd check_network_access fetch_error_msg d',
        download runfetchcmd check_network_access fetch_error_msg ud' d' =
        download runfetchcmd check_network_access fetch_error_msg
          Sample.ud_latest d') /\
    (forall fetch_error_msg ud0 d0,
        urldata_init fetch_error_msg ud0 d0 = Ok Sample.ud_latest ->
        exists dl_dir,
          getVar d0 "DL_DIR" true = Some dl_dir /\
          ud_localfile ud' =
            OsPath.join dl_dir (ud_identifier Sample.ud_latest ++ ".tar.gz")).
Proof.
  apply (need_update_floating_frame Sample.ud_latest Sample.d_latest
           (fs Sample.empty_world)).
  left. vm_compute. reflexivity.
Defined.

(** C7, witness: SRCREV = "/main/LATEST", twice with the same DATETIME. *)
Lemma need_update_floating_twice_witness :
  exists ud1 ud2,
    need_update Sample.ud_latest Sample.d_latest (fs Sample.empty_world) =
      (true, ud1) /\
    need_update ud1 Sample.d_latest (fs Sample.empty_world) = (true, ud2) /\
    ud_identifier ud2 <> ud_identifier ud1.
Proof.
  apply (need_update_floating_twice Sample.ud_latest Sample.d_latest
           Sample.d_latest (fs Sample.empty_world) (fs Sample.empty_world)).
  left. vm_compute. reflexivity.
Defined.

Example need_update_latest_identifiers :
  let '(_, ud1) :=
    need_update Sample.ud_latest Sample.d_latest (fs Sample.empty_world) in
  let '(_, ud2) := need_update ud1 Sample.d_latest (fs Sample.empty_world) in
  ud_identifier ud1 = "clearcase-vob1.mod1-.main.LATEST-20240101120000" /\
  ud_identifier ud2 =
    "clearcase-vob1.mod1-.main.LATEST-20240101120000-20240101120000" /\
  ud_localfile ud2 = "/dl/clearcase-vob1.mod1-.main.LATEST.tar.gz".
Proof. vm_compute. repeat split; reflexivity. Qed.

(** ** The config spec *)

Section ConfigSpec.

Lemma open_write_file (p content : string) (w : World) :
  p ∉ dirs (fs w) ->
  parent_exists p (fs w) = true ->
  open_write p content w =
    (Ok tt, {| fs := {| files := <[p := content]> (files (fs w));
                        dirs := dirs (fs w) |};
               trace := trace w |}).
Proof.
  intros Hp Hdir. unfold open_write, on_fs.
  rewrite bool_decide_eq_false_2 by exact Hp. rewrite Hdir. reflexivity.
Qed.

(** Without its directory the file is not made. *)
Lemma open_write_no_directory (p content : string) (w : World) :
  parent_exists p (fs w) = false ->
  exists message,
    open_write p content w = (Raise (OSError message), w).
Proof.
  intros Hdir. unfold open_write, on_fs. rewrite Hdir.
  destruct (bool_decide (p ∈ dirs (fs w))); destruct w; eexists; reflexivity.
Qed.

(** [bb.utils.mkdirhier(dir)] has made the directory of every path whose
    [os.path.dirname] is [dir]. *)
Lemma parent_made (p dir : string) (f : gmap string string) (ds : gset string) :
  OsPath.dirname p = dir ->
  parent_exists p {| files := f; dirs := {[ dir ]} ∪ ds |} = true.
Proof.
  intros H. unfold parent_exists. cbn [dirs]. rewrite H.
  apply orb_true_iff. right. apply bool_decide_eq_true_2. set_solver.
Qed.

(** What [_write_configspec] leaves in the file. *)
Lemma write_configspec_content (ud : FetchData) (d : DataStore) (w : World) :
  ud_configspecfile ud ∉ dirs (fs w) ->
  parent_exists (ud_configspecfile ud) (fs w) = true ->
  exists w',
    _write_configspec ud d w = (Ok tt, w') /\
    files (fs w') !! ud_configspecfile ud = Some (config_spec_text ud d) /\
    dirs (fs w') = dirs (fs w).
Proof.
  intros Hp Hdir. unfold _write_configspec, bind, emit.
  rewrite open_write_file by assumption. eexists. split; [reflexivity|].
  cbn. split; [apply lookup_insert_eq | reflexivity].
Qed.

(** C5: with a custom config spec set, the text [_write_configspec] builds
    is the override with its line endings normalized (each backslash-n
    separator of the recipe a line feed, the last line ended by a line
    feed), whatever vob, module and label are; an override without
    separators is taken as it is, followed by a line feed.  Where the
    directory of the config spec file exists and the path is no directory,
    [_write_configspec] returns and the file holds this text. *)
Theorem write_configspec_custom
    (ud : FetchData) (d : DataStore) (custom : string) (w : World) :
  getVar d "CCASE_CUSTOM_CONFIG_SPEC" true = Some custom ->
  ud_configspecfile ud ∉ dirs (fs w) ->
  parent_exists (ud_configspecfile ud) (fs w) = true ->
  config_spec_text ud d = normalized_override custom /\
  (exists w',
      _write_configspec ud d w = (Ok tt, w') /\
      files (fs w') !! ud_configspecfile ud = Some (normalized_override custom)) /\
  (PyStr.contains "\n" custom = false ->
   normalized_override custom = custom ++ nl).
Proof.
  intros Hc Hp Hdir.
  assert (Htext : config_spec_text ud d = normalized_override custom).
  { unfold config_spec_text. rewrite Hc. apply add_lines_split2. }
  split; [exact Htext|]. split.
  - destruct (write_configspec_content ud d w Hp Hdir) as (w' & Hrun & Hfile & _).
    exists w'. split; [exact Hrun|]. rewrite Hfile, Htext. reflexivity.
  - intros Hno. unfold normalized_override.
    now rewrite replace2_without_separator.
Qed.

(** C6: without a custom config spec, for vob="/vob1", module="/mod1",
    label="rel1" the text [_write_configspec] builds is the three lines
    "element * CHECKEDOUT", "element * rel1", "load /vob1/mod1", each ended
    by a line feed, in this order, and nothing else.  Where the directory of
    the config spec file exists and the path is no directory,
    [_write_configspec] returns and the file holds exactly this text. *)
Theorem write_configspec_default
    (ud : FetchData) (d : DataStore) (w : World) :
  ud_vob ud = "/vob1" -> ud_module ud = "/mod1" -> ud_label ud = "rel1" ->
  getVar d "CCASE_CUSTOM_CONFIG_SPEC" true = None ->
  ud_configspecfile ud ∉ dirs (fs w) ->
  parent_exists (ud_configspecfile ud) (fs w) = true ->
  config_spec_text ud d =
    "element * CHECKEDOUT" ++ nl ++ "element * rel1" ++ nl ++
    "load /vob1/mod1" ++ nl /\
  exists w',
    _write_configspec ud d w = (Ok tt, w') /\
    files (fs w') !! ud_configspecfile ud =
      Some ("element * CHECKEDOUT" ++ nl ++
            "element * rel1" ++ nl ++
            "load /vob1/mod1" ++ nl).
Proof.
  intros Hv Hm Hl Hc Hp Hdir.
  assert (Htext : config_spec_text ud d =
                  "element * CHECKEDOUT" ++ nl ++ "element * rel1" ++ nl ++
                  "load /vob1/mod1" ++ nl).
  { unfold config_spec_text. rewrite Hc, Hv, Hm, Hl. reflexivity. }
  split; [exact Htext|].
  destruct (write_configspec_content ud d w Hp Hdir) as (w' & Hrun & Hfile & _).
  exists w'. split; [exact Hrun|]. rewrite Hfile, Htext. reflexivity.
Qed.

End ConfigSpec.

(** C5, witness: a three-line override in a recipe whose SRCREV is "rel1",
    written into the ccase directory of the download directory. *)
Lemma write_configspec_custom_witness :
  config_spec_text Sample.ud_rel1 Sample.d_custom =
    normalized_override
      "element * CHECKEDOUT\nelement * /main/7\nload /other" /\
  (exists w',
      _write_configspec Sample.ud_rel1 Sample.d_custom Sample.cache_world =
        (Ok tt, w') /\
      files (fs w') !! ud_configspecfile Sample.ud_rel1 =
        Some (normalized_override
                "element * CHECKEDOUT\nelement * /main/7\nload /other")) /\
  (PyStr.contains "\n" "element * CHECKEDOUT\nelement * /main/7\nload /other"
     = false ->
   normalized_override "element * CHECKEDOUT\nelement * /main/7\nload /other"
     = "element * CHECKEDOUT\nelement * /main/7\nload /other" ++ nl).
Proof.
  apply (write_configspec_custom Sample.ud_rel1 Sample.d_custom
           "element * CHECKEDOUT\nelement * /main/7\nload /other"
           Sample.cache_world).
  - reflexivity.
  - unfold Sample.cache_world. cbn [fs dirs].
    apply not_elem_of_singleton. vm_compute. discriminate.
  - vm_compute. reflexivity.
Defined.

Example custom_config_spec_lines :
  config_spec_text Sample.ud_rel1 Sample.d_custom =
    "element * CHECKEDOUT" ++ nl ++ "element * /main/7" ++ nl ++
    "load /other" ++ nl.
Proof. vm_compute. reflexivity. Qed.

(** C6, witness: the recipe of the module documentation, written into the
    ccase directory of the download directory. *)
Lemma write_configspec_default_witness :
  config_spec_text Sample.ud_rel1 Sample.d_rel1 =
    "element * CHECKEDOUT" ++ nl ++ "element * rel1" ++ nl ++
    "load /vob1/mod1" ++ nl /\
  exists w',
    _write_configspec Sample.ud_rel1 Sample.d_rel1 Sample.cache_world =
      (Ok tt, w') /\
    files (fs w') !! ud_configspecfile Sample.ud_rel1 =
      Some ("element * CHECKEDOUT" ++ nl ++
            "element * rel1" ++ nl ++
            "load /vob1/mod1" ++ nl).
Proof.
  apply (write_configspec_default Sample.ud_rel1 Sample.d_rel1
           Sample.cache_world).
  - reflexivity.
  - reflexivity.
  - reflexivity.
  - reflexivity.
  - unfold Sample.cache_world. cbn [fs dirs].
    apply not_elem_of_singleton. vm_compute. discriminate.
  - vm_compute. reflexivity.
Defined.

(** In a download directory without the ccase directory the config spec is
    not written: [_write_configspec] on its own raises. *)
Example write_configspec_without_directory :
  exists message,
    _write_configspec Sample.ud_rel1 Sample.d_rel1 Sample.empty_world =
      (Raise (OSError message),
       {| fs := fs Sample.empty_world; trace := [Call "_write_configspec"] |}).
Proof. eexists. vm_compute. reflexivity. Qed.

(** ** Command lines *)

Section Commands.

Variable fetch_error_msg : string -> string.

(** C9: for each of the verbs mkview, rmview and setcs the remote client
    gets the server option in front of the options of the verb; the mkview
    command of the local client has the snapshot flag in front of the tag
    option, and the mkview command of the remote client has the server
    option there and no snapshot flag.  The command line is the base
    command, the verb and the options, joined by spaces. *)
Theorem build_ccase_command_options (ud : FetchData) :
  ccase_options fetch_error_msg ud "mkview" =
    Ok ((if is_remote ud then ["-server " +:+ ud_server ud] else ["-snapshot"])
        ++ ["-tag " +:+ ud_viewname ud; ud_viewdir ud])%list /\
  ccase_options fetch_error_msg ud "rmview" =
    Ok ((if is_remote ud then ["-server " +:+ ud_server ud] else [])
        ++ ["-force"; ud_viewdir ud])%list /\
  ccase_options fetch_error_msg ud "setcs" =
    Ok ((if is_remote ud then ["-server " +:+ ud_server ud] else [])
        ++ ["-overwrite"; ud_configspecfile ud])%list /\
  (forall verb options,
      ccase_options fetch_error_msg ud verb = Ok options ->
      _build_ccase_command fetch_error_msg ud verb =
        Ok (ud_basecmd ud ++ " " ++ verb ++ " " ++ PyStr.join " " options)) /\
  _build_ccase_command fetch_error_msg ud "mkview" =
    Ok (ud_basecmd ud ++ " mkview " ++
        (if is_remote ud then "-server " ++ ud_server ud else "-snapshot") ++
        " -tag " ++ ud_viewname ud ++ " " ++ ud_viewdir ud).
Proof.
  assert (Hverb : forall verb options,
             ccase_options fetch_error_msg ud verb = Ok options ->
             _build_ccase_command fetch_error_msg ud verb =
               Ok (ud_basecmd ud ++ " " ++ verb ++ " " ++
                   PyStr.join " " options)).
  { intros verb options H. unfold _build_ccase_command. rewrite H. cbn.
    now rewrite !append_assoc. }
  assert (Hmk : ccase_options fetch_error_msg ud "mkview" =
                Ok ((if is_remote ud then ["-server " +:+ ud_server ud]
                     else ["-snapshot"])
                    ++ ["-tag " +:+ ud_viewname ud; ud_viewdir ud])%list).
  { unfold ccase_options, list_append. destruct (is_remote ud); reflexivity. }
  repeat split.
  - exact Hmk.
  - unfold ccase_options, list_append. destruct (is_remote ud); reflexivity.
  - unfold ccase_options, list_append. destruct (is_remote ud); reflexivity.
  - exact Hverb.
  - rewrite (Hverb _ _ Hmk). destruct (is_remote ud); cbn;
      now rewrite ?append_assoc.
Qed.

(** A verb other than the three is refused. *)
Lemma build_ccase_command_other_verb (ud : FetchData) (verb : string) :
  verb <> "mkview" -> verb <> "rmview" -> verb <> "setcs" ->
  _build_ccase_command fetch_error_msg ud verb =
    Raise (FetchError (fetch_error_msg ("Invalid ccase command " ++ verb))).
Proof.
  intros H1 H2 H3. apply String.eqb_neq in H1, H2, H3.
  unfold _build_ccase_command, ccase_options. rewrite H1, H2, H3. reflexivity.
Qed.

End Commands.

Example mkview_remote :
  is_remote Sample.ud_rel1 = true /\
  _build_ccase_command Sample.fetcher_failure Sample.ud_rel1 "mkview" =
    Ok "/usr/bin/env cleartool || rcleartool mkview -server https://cc.example.org/ccrc -tag clearcase-vob1.mod1-rel1-view20240101120000 /dl/ccrc/clearcase-vob1.mod1-rel1-view20240101120000".
Proof. split; vm_compute; reflexivity. Qed.

Example mkview_local :
  is_remote Sample.ud_local = false /\
  _build_ccase_command Sample.fetcher_failure Sample.ud_local "mkview" =
    Ok "cleartool mkview -snapshot -tag clearcase-vob1.mod1-rel1-viewNone /dl/ccrc/clearcase-vob1.mod1-rel1-viewNone".
Proof. split; vm_compute; reflexivity. Qed.

Example rmview_remote :
  _build_ccase_command Sample.fetcher_failure Sample.ud_rel1 "rmview" =
    Ok "/usr/bin/env cleartool || rcleartool rmview -server https://cc.example.org/ccrc -force /dl/ccrc/clearcase-vob1.mod1-rel1-view20240101120000".
Proof. vm_compute. reflexivity. Qed.

(** ** What a computation adds to the trace *)

Section Emits.

Context {A : Type} (P : Event -> Prop).

Lemma emits_ret (a : A) : emits P (ret a).
Proof. intros w. exists []. split; [symmetry; apply app_nil_r | constructor]. Qed.

Lemma emits_raise (e : Exc) : emits P (@raise A e).
Proof. intros w. exists []. split; [symmetry; apply app_nil_r | constructor]. Qed.

Lemma emits_lift (r : Result A) : emits P (lift r).
Proof. intros w. exists []. split; [symmetry; apply app_nil_r | constructor]. Qed.

Lemma emits_on_fs (f : FS -> Result A * FS) : emits P (on_fs f).
Proof.
  intros w. exists []. unfold on_fs. destruct (f (fs w)) as [r s].
  split; [symmetry; apply app_nil_r | constructor].
Qed.

Lemma emits_try_except (m : M A) (h : Exc -> M A) :
  emits P m -> (forall e, emits P (h e)) -> emits P (try_except m h).
Proof.
  intros Hm Hh w. unfold try_except.
  destruct (Hm w) as (evs & Ht & Hall).
  destruct (m w) as [[a|e] w1]; cbn [snd] in *.
  - exists evs. split; assumption.
  - destruct (Hh e w1) as (evs' & Ht' & Hall').
    exists (evs ++ evs')%list. rewrite Ht', Ht, <- app_assoc.
    split; [reflexivity | apply Forall_app; split; assumption].
Qed.

End Emits.

Lemma emits_emit (P : Event -> Prop) (ev : Event) : P ev -> emits P (emit ev).
Proof. intros H w. exists [ev]. split; [reflexivity | repeat constructor; exact H]. Qed.

Lemma emits_get_fs (P : Event -> Prop) : emits P get_fs.
Proof. intros w. exists []. split; [symmetry; apply app_nil_r | constructor]. Qed.

Lemma emits_bind {A B : Type} (P : Event -> Prop) (m : M A) (k : A -> M B) :
  emits P m -> (forall a, emits P (k a)) -> emits P (bind m k).
Proof.
  intros Hm Hk w. unfold bind.
  destruct (Hm w) as (evs & Ht & Hall).
  destruct (m w) as [[a|e] w1]; cbn [snd] in *.
  - destruct (Hk a w1) as (evs' & Ht' & Hall').
    exists (evs ++ evs')%list. rewrite Ht', Ht, <- app_assoc.
    split; [reflexivity | apply Forall_app; split; assumption].
  - exists evs. split; assumption.
Qed.

(** One step of a computation. *)
Lemma bind_emit {B : Type} (ev : Event) (k : unit -> M B) (w : World) :
  bind (emit ev) k w =
    k tt {| fs := fs w; trace := (trace w ++ [ev])%list |}.
Proof. reflexivity. Qed.

Lemma bind_ok {A B : Type} (m : M A) (k : A -> M B) (w w' : World) (a : A) :
  m w = (Ok a, w') -> bind m k w = k a w'.
Proof. intros H. unfold bind. rewrite H. reflexivity. Qed.

Lemma bind_raise {A B : Type} (m : M A) (k : A -> M B) (w w' : World) (e : Exc) :
  m w = (Raise e, w') -> bind m k w = (Raise e, w').
Proof. intros H. unfold bind. rewrite H. reflexivity. Qed.

Lemma bind_lift_ok {A B : Type} (a : A) (k : A -> M B) (w : World) :
  bind (lift (Ok a)) k w = k a w.
Proof. reflexivity. Qed.

Create HintDb emits.
#[local] Hint Resolve emits_ret emits_raise emits_lift emits_on_fs
  emits_get_fs : emits.

(** ** The life cycle of a view *)

Section Lifecycle.

Variable runfetchcmd :
  string -> DataStore -> option string -> list string -> FS -> Result string * FS.
Variable check_network_access : DataStore -> string -> string -> Result unit.
Variable fetch_error_msg : string -> string.

Local Abbreviation build := (_build_ccase_command fetch_error_msg).
Local Abbreviation run' := (run runfetchcmd).
Local Abbreviation net_check' := (net_check check_network_access).
Local Abbreviation remove_view :=
  (_remove_view runfetchcmd check_network_access fetch_error_msg).
Local Abbreviation clean' :=
  (clean runfetchcmd check_network_access fetch_error_msg).
Local Abbreviation download_steps' :=
  (download_steps runfetchcmd check_network_access fetch_error_msg).
Local Abbreviation download' :=
  (download runfetchcmd check_network_access fetch_error_msg).

Lemma emits_mkview_handler (P : Event -> Prop) (e : Exc) :
  emits P (mkview_handler fetch_error_msg e).
Proof.
  destruct e; cbn; auto with emits.
  destruct (PyStr.contains "CRCLI2008E" msg); auto with emits.
Qed.

(* Walks through a computation bind by bind; what stays to prove is that
   the events it emits satisfy the predicate. *)
Ltac emits_auto :=
  repeat first
    [ apply emits_bind; [|intros ?]
    | apply emits_try_except; [|intros ?]
    | apply emits_mkview_handler
    | apply emits_emit
    | solve [auto with emits] ].

(** Before its last statement [download] never enters [clean]. *)
Lemma download_steps_no_clean (ud : FetchData) (d : DataStore) :
  emits (fun ev => ev <> Call "clean") (download_steps' ud d).
Proof.
  unfold download_steps, _write_configspec, bb_utils_mkdirhier, open_write,
    shutil_copyfile, run, net_check.
  emits_auto; discriminate.
Qed.

Lemma remove_view_emits (ud : FetchData) (d : DataStore) :
  emits (fun _ => True) (remove_view ud d).
Proof.
  unfold _remove_view, run, net_check. emits_auto; try exact I.
  destruct (os_path_exists _ _); emits_auto; exact I.
Qed.

(** [clean] records its call first. *)
Lemma clean_trace (ud : FetchData) (d : DataStore) (w : World) :
  exists evs,
    trace (snd (clean' ud d w)) = (trace w ++ Call "clean" :: evs)%list.
Proof.
  assert (H : emits (fun _ => True)
                (let* _ := remove_view ud d in
                 bb_utils_remove (ud_configspecfile ud))).
  { apply emits_bind; [apply remove_view_emits|].
    intros _. unfold bb_utils_remove. auto with emits. }
  destruct (H {| fs := fs w; trace := trace w ++ [Call "clean"] |})
    as (evs & Ht & _).
  exists evs. unfold clean. unfold bind at 1. cbn [emit].
  rewrite Ht. cbn [trace]. now rewrite <- app_assoc.
Qed.

(** When [clean] returns, the config spec file is gone. *)
Lemma clean_removes_configspec (ud : FetchData) (d : DataStore) (w w' : World) :
  clean' ud d w = (Ok tt, w') ->
  files (fs w') !! ud_configspecfile ud = None.
Proof.
  unfold clean, bind at 1 2. cbn [emit].
  destruct (remove_view ud d _) as [[[]|e] w1]; [|discriminate].
  unfold bb_utils_remove, on_fs. intros H. injection H as <-.
  cbn. apply lookup_delete_eq.
Qed.

(** With no view directory and no config spec file there is nothing to
    do: [clean] runs no command and leaves the file system as it is. *)
Lemma clean_nothing_to_do (ud : FetchData) (d : DataStore) (w : World) :
  os_path_exists (ud_viewdir ud) (fs w) = false ->
  files (fs w) !! ud_configspecfile ud = None ->
  clean' ud d w =
    (Ok tt, {| fs := fs w;
               trace := (trace w ++ [Call "clean"; Call "_remove_view"])%list |}).
Proof.
  intros Hview Hcs. unfold clean, _remove_view, bind, emit, get_fs.
  cbn [fs trace]. rewrite Hview. unfold ret, bb_utils_remove, on_fs.
  cbn [fs trace]. rewrite delete_id by exact Hcs.
  rewrite <- app_assoc. destruct w as [[f ds] t]. reflexivity.
Qed.

(** C10: when a first [clean] has returned and the view directory is gone,
    a second [clean] returns normally too: it finds the config spec file
    already absent, runs neither the network check nor rmview, and leaves
    the file system unchanged. *)
Theorem clean_twice (ud : FetchData) (d : DataStore) (w w1 : World) :
  clean' ud d w = (Ok tt, w1) ->
  os_path_exists (ud_viewdir ud) (fs w1) = false ->
  files (fs w1) !! ud_configspecfile ud = None /\
  clean' ud d w1 =
    (Ok tt, {| fs := fs w1;
               trace := (trace w1 ++ [Call "clean"; Call "_remove_view"])%list |}).
Proof.
  intros Hfirst Hview.
  pose proof (clean_removes_configspec ud d w w1 Hfirst) as Hcs.
  split; [exact Hcs | apply clean_nothing_to_do; assumption].
Qed.

Lemma mkdirhier_run (p : string) (w : World) :
  files (fs w) !! p = None ->
  bb_utils_mkdirhier p w =
    (Ok tt, {| fs := {| files := files (fs w); dirs := {[ p ]} ∪ dirs (fs w) |};
               trace := trace w |}).
Proof.
  intros Hp. unfold bb_utils_mkdirhier, on_fs.
  rewrite bool_decide_eq_false_2 by (rewrite Hp; apply is_Some_None).
  reflexivity.
Qed.

Lemma write_configspec_run (ud : FetchData) (d : DataStore) (w : World) :
  ud_configspecfile ud ∉ dirs (fs w) ->
  parent_exists (ud_configspecfile ud) (fs w) = true ->
  _write_configspec ud d w =
    (Ok tt,
     {| fs := {| files := <[ud_configspecfile ud := config_spec_text ud d]>
                            (files (fs w));
                 dirs := dirs (fs w) |};
        trace := (trace w ++ [Call "_write_configspec"])%list |}).
Proof.
  intros Hp Hdir. unfold _write_configspec. rewrite bind_emit.
  rewrite open_write_file by assumption. reflexivity.
Qed.

Lemma net_check_run (d : DataStore) (cmd url : string) (w : World) :
  net_check' d cmd url w =
    (check_network_access d cmd url,
     {| fs := fs w; trace := (trace w ++ [NetCheck cmd url])%list |}).
Proof. unfold net_check. rewrite bind_emit. reflexivity. Qed.

Lemma run_run (cmd : string) (d : DataStore) (workdir : option string)
    (cleanup : list string) (w : World) (r : Result string) (s2 : FS) :
  runfetchcmd cmd d workdir cleanup (fs w) = (r, s2) ->
  run' cmd d workdir cleanup w =
    (r, {| fs := s2; trace := (trace w ++ [Run cmd workdir])%list |}).
Proof.
  intros H. unfold run. rewrite bind_emit. unfold on_fs. cbn [fs trace].
  rewrite H. reflexivity.
Qed.

(** A failure of mkview ends [download] with what the except clause
    raises, in the state mkview left, with nothing run after it. *)
Lemma download_mkview_raises
    (ud : FetchData) (d : DataStore) (w : World) (cmd : string)
    (e e' : Exc) (s2 : FS) :
  files (fs w) !! ud_ccasedir ud = None ->
  ud_configspecfile ud ∉ {[ ud_ccasedir ud ]} ∪ dirs (fs w) ->
  OsPath.dirname (ud_configspecfile ud) = ud_ccasedir ud ->
  build ud "mkview" = Ok cmd ->
  check_network_access d cmd (ud_url ud) = Ok tt ->
  runfetchcmd cmd d None [] (prepared ud d (fs w)) = (Raise e, s2) ->
  (forall w0, mkview_handler fetch_error_msg e w0 = (Raise e', w0)) ->
  download' ud d w =
    (Raise e',
     {| fs := s2;
        trace := (trace w ++ [Call "download"; Call "_write_configspec";
                              NetCheck cmd (ud_url ud); Run cmd None])%list |}).
Proof.
  intros Hdir Hcs Hin Hcmd Hnet Hrun Hh.
  unfold download. erewrite bind_raise; [reflexivity|].
  unfold download_steps. rewrite bind_emit.
  erewrite bind_ok by (apply mkdirhier_run; exact Hdir).
  erewrite bind_ok
    by (apply write_configspec_run; [exact Hcs | apply parent_made; exact Hin]).
  rewrite Hcmd, bind_lift_ok.
  erewrite bind_ok by (rewrite net_check_run, Hnet; reflexivity).
  erewrite bind_raise; [reflexivity|].
  unfold try_except. erewrite run_run by exact Hrun.
  cbv beta iota. rewrite Hh. cbn [fs trace]. rewrite <- !app_assoc.
  reflexivity.
Qed.

(** C8: when the mkview command of [download] fails with a [FetchError]
    whose text contains "CRCLI2008E", [download] raises a [FetchError] whose
    text contains the text of the original error, the login hint and in it
    the words `rcleartool login` (given that a [FetchError] keeps the message
    it is made with in its text); any other failure of mkview is raised
    again as it is.  The run reaches mkview: the config spec file lies in
    the ccase directory, which [download] makes first. *)
Theorem download_mkview_failure
    (ud : FetchData) (d : DataStore) (w : World) (cmd : string)
    (e : Exc) (s2 : FS) :
  files (fs w) !! ud_ccasedir ud = None ->
  ud_configspecfile ud ∉ {[ ud_ccasedir ud ]} ∪ dirs (fs w) ->
  OsPath.dirname (ud_configspecfile ud) = ud_ccasedir ud ->
  build ud "mkview" = Ok cmd ->
  check_network_access d cmd (ud_url ud) = Ok tt ->
  runfetchcmd cmd d None [] (prepared ud d (fs w)) = (Raise e, s2) ->
  exists w',
    (forall msg,
        e = FetchError msg ->
        PyStr.contains "CRCLI2008E" msg = true ->
        PyStr.contains (msg ++ nl ++ login_hint ++ nl)
          (fetch_error_msg (msg ++ nl ++ login_hint ++ nl)) = true ->
        exists msg',
          download' ud d w = (Raise (FetchError msg'), w') /\
          PyStr.contains msg msg' = true /\
          PyStr.contains login_hint msg' = true /\
          PyStr.contains "rcleartool login" msg' = true) /\
    ((forall msg, e = FetchError msg ->
                  PyStr.contains "CRCLI2008E" msg = false) ->
     download' ud d w = (Raise e, w')).
Proof.
  intros Hdir Hcs Hin Hcmd Hnet Hrun.
  eexists. split.
  - intros msg -> Hsig Hkeep.
    exists (fetch_error_msg (msg ++ nl ++ login_hint ++ nl)).
    split; [|split; [|split]].
    + apply (download_mkview_raises ud d w cmd (FetchError msg) _ s2);
        try assumption.
      intros w0. cbn. rewrite Hsig. reflexivity.
    + refine (contains_trans _ _ _ _ Hkeep).
      apply (contains_self_framed "" msg).
    + refine (contains_trans _ _ _ _ Hkeep).
      rewrite <- (append_assoc msg nl). apply contains_self_framed.
    + refine (contains_trans _ _ _ _ Hkeep).
      apply (contains_trans "rcleartool login" login_hint);
        [vm_compute; reflexivity|].
      rewrite <- (append_assoc msg nl). apply contains_self_framed.
  - intros Hother.
    apply (download_mkview_raises ud d w cmd e e s2); try assumption.
    intros w0. destruct e; try reflexivity.
    cbn. rewrite (Hother msg eq_refl). reflexivity.
Qed.

End Lifecycle.

(** C1, as the specification states it: in a fetch whose setcs command
    fails, [download] raises, [clean] has not been called, and both the view
    directory and the config spec file are still there. *)
Lemma download_cleans_counterexample :
  fst Sample.run_setcs_fails = Raise (FetchError Sample.setcs_refused) /\
  ~ In (Call "clean") (trace (snd Sample.run_setcs_fails)) /\
  os_path_exists (ud_viewdir Sample.ud_rel1)
    (fs (snd Sample.run_setcs_fails)) = true /\
  os_path_exists (ud_configspecfile Sample.ud_rel1)
    (fs (snd Sample.run_setcs_fails)) = true.
Proof.
  split; [vm_compute; reflexivity|]. split.
  - vm_compute. intuition discriminate.
  - split; vm_compute; reflexivity.
Qed.

Example download_ok_cleans :
  fst Sample.run_ok = Ok tt /\
  In (Call "clean") (trace (snd Sample.run_ok)) /\
  os_path_exists (ud_viewdir Sample.ud_rel1) (fs (snd Sample.run_ok)) = false /\
  os_path_exists (ud_configspecfile Sample.ud_rel1) (fs (snd Sample.run_ok))
    = false /\
  files (fs (snd Sample.run_ok)) !! ud_localpath Sample.ud_rel1 = Some "archive".
Proof.
  split; [vm_compute; reflexivity|]. split.
  - vm_compute. intuition.
  - repeat split; vm_compute; reflexivity.
Qed.

(** C8, witness: a remote client that has not been logged in, and one
    whose mkview fails because the view tag is taken. *)
Lemma download_mkview_failure_witness :
  (exists msg' w',
      Sample.run_logged_out = (Raise (FetchError msg'), w') /\
      PyStr.contains Sample.login_required msg' = true /\
      PyStr.contains login_hint msg' = true /\
      PyStr.contains "rcleartool login" msg' = true) /\
  (exists w',
      download (Sample.client_tag_in_use Sample.ud_rel1) Sample.network_allowed
        Sample.fetcher_failure Sample.ud_rel1 Sample.d_rel1 Sample.empty_world
      = (Raise (FetchError Sample.tag_in_use), w')).
Proof.
  split.
  - destruct (download_mkview_failure
                (Sample.client_logged_out Sample.ud_rel1)
                Sample.network_allowed Sample.fetcher_failure
                Sample.ud_rel1 Sample.d_rel1 Sample.empty_world
                Sample.mkview_cmd (FetchError Sample.login_required)
                (prepared Sample.ud_rel1 Sample.d_rel1 (fs Sample.empty_world)))
      as (w' & Hauth & _).
    + reflexivity.
    + apply not_elem_of_union. split.
      * apply not_elem_of_singleton. vm_compute. discriminate.
      * apply not_elem_of_empty.
    + vm_compute. reflexivity.
    + vm_compute. reflexivity.
    + reflexivity.
    + vm_compute. reflexivity.
    + destruct (Hauth Sample.login_required eq_refl) as (msg' & H1 & H2 & H3 & H4).
      * vm_compute. reflexivity.
      * vm_compute. reflexivity.
      * exists msg', w'. repeat split; assumption.
  - destruct (download_mkview_failure
                (Sample.client_tag_in_use Sample.ud_rel1)
                Sample.network_allowed Sample.fetcher_failure
                Sample.ud_rel1 Sample.d_rel1 Sample.empty_world
                Sample.mkview_cmd (FetchError Sample.tag_in_use)
                (prepared Sample.ud_rel1 Sample.d_rel1 (fs Sample.empty_world)))
      as (w' & _ & Hother).
    + reflexivity.
    + apply not_elem_of_union. split.
      * apply not_elem_of_singleton. vm_compute. discriminate.
      * apply not_elem_of_empty.
    + vm_compute. reflexivity.
    + vm_compute. reflexivity.
    + reflexivity.
    + vm_compute. reflexivity.
    + exists w'. apply Hother. intros msg Hmsg. injection Hmsg as <-.
      vm_compute. reflexivity.
Defined.

Example download_logged_out_message :
  fst Sample.run_logged_out =
    Raise (FetchError
             ("Fetcher failure: " ++ Sample.login_required ++ nl ++
              login_hint ++ nl)).
Proof. vm_compute. reflexivity. Qed.

(** C10, witness: [clean] after a fetch that went through, then [clean]
    again. *)
Lemma clean_twice_witness :
  files (fs (snd Sample.run_ok)) !! ud_configspecfile Sample.ud_rel1 = None /\
  Sample.run_clean_again =
    (Ok tt,
     {| fs := fs (snd Sample.run_ok);
        trace := (trace (snd Sample.run_ok) ++
                  [Call "clean"; Call "_remove_view"])%list |}).
Proof.
  apply (clean_twice (Sample.client Sample.ud_rel1) Sample.network_allowed
           Sample.fetcher_failure Sample.ud_rel1 Sample.d_rel1
           Sample.after_tar (snd Sample.run_ok)).
  - vm_compute. reflexivity.
  - vm_compute. reflexivity.
Defined.

(** * Further properties of the fetcher *)

(** ** Cache reuse *)

Section CacheReuse.

Lemma floating_iff (ud : FetchData) :
  floating ud <->
  PyStr.contains "LATEST" (ud_label ud)
  || match ud_customspec ud with
     | Some c => PyStr.truthy c && PyStr.contains "LATEST" c
     | None => false
     end = true.
Proof.
  split; [apply floating_condition|].
  intros H. apply orb_true_iff in H as [H|H]; [left; exact H|].
  destruct (ud_customspec ud) as [c|] eqn:Ec; [|discriminate].
  apply andb_true_iff in H as [_ H]. right. exists c. split; [exact Ec | exact H].
Qed.

(** X1: for a label and custom config spec without the floating sentinel,
    [need_update] answers whether the archive is missing and leaves [ud] as
    it is, identifier included. *)
Theorem need_update_pinned (ud : FetchData) (d : DataStore) (s : FS) :
  ~ floating ud ->
  need_update ud d s = (negb (os_path_exists (ud_localpath ud) s), ud).
Proof.
  intros H. rewrite floating_iff in H. apply not_true_is_false in H.
  unfold need_update. rewrite H. destruct (os_path_exists _ _); reflexivity.
Qed.

(** X2: [need_update] returns False exactly when neither the label nor the
    custom config spec contains the floating sentinel and something exists
    at [ud.localpath]. *)
Theorem need_update_false_iff (ud : FetchData) (d : DataStore) (s : FS) :
  fst (need_update ud d s) = false <->
  ~ floating ud /\ os_path_exists (ud_localpath ud) s = true.
Proof.
  rewrite floating_iff. unfold need_update.
  destruct (PyStr.contains "LATEST" (ud_label ud) || _); cbn.
  - split; [discriminate | intros [H _]; exfalso; apply H; reflexivity].
  - destruct (os_path_exists _ _); cbn; split; try discriminate; auto.
    intros [_ H]. discriminate.
Qed.

End CacheReuse.

(** X1, witness: SRCREV = "rel1", with the archive in the download
    directory. *)
Lemma need_update_pinned_witness :
  need_update Sample.ud_rel1 Sample.d_rel1 Scenario.fs_with_archive =
    (negb (os_path_exists (ud_localpath Sample.ud_rel1) Scenario.fs_with_archive),
     Sample.ud_rel1).
Proof.
  apply (need_update_pinned Sample.ud_rel1 Sample.d_rel1 Scenario.fs_with_archive).
  intros [H | [c [H _]]]; vm_compute in H; discriminate.
Defined.

Example need_update_archive_present :
  fst (need_update Sample.ud_rel1 Sample.d_rel1 Scenario.fs_with_archive) = false /\
  fst (need_update Sample.ud_rel1 Sample.d_rel1 (fs Sample.empty_world)) = true.
Proof. split; vm_compute; reflexivity. Qed.

(** ** Verbs *)

Section Verbs.

Variable fetch_error_msg : string -> string.

(** X3: a verb whose text is none of mkview, rmview and setcs is refused,
    for the local and for the remote client alike: no option list and no
    command line is built, and [_build_ccase_command] raises the
    [FetchError] "Invalid ccase command <verb>" with the text of the verb. *)
Theorem build_ccase_command_refuses (ud : FetchData) (verb : string) :
  verb <> "mkview" -> verb <> "rmview" -> verb <> "setcs" ->
  ccase_options fetch_error_msg ud verb =
    Raise (FetchError (fetch_error_msg ("Invalid ccase command " ++ verb))) /\
  _build_ccase_command fetch_error_msg ud verb =
    Raise (FetchError (fetch_error_msg ("Invalid ccase command " ++ verb))).
Proof.
  intros H1 H2 H3. apply String.eqb_neq in H1, H2, H3.
  assert (Hopt : ccase_options fetch_error_msg ud verb =
                 Raise (FetchError
                          (fetch_error_msg ("Invalid ccase command " ++ verb)))).
  { unfold ccase_options. rewrite H1, H2, H3. reflexivity. }
  split; [exact Hopt|]. unfold _build_ccase_command. rewrite Hopt. reflexivity.
Qed.

End Verbs.

(** X3, witness: "update" is no verb of the fetcher. *)
Lemma build_ccase_command_refuses_witness :
  ccase_options Sample.fetcher_failure Sample.ud_rel1 "update" =
    Raise (FetchError
             (Sample.fetcher_failure ("Invalid ccase command " ++ "update"))) /\
  _build_ccase_command Sample.fetcher_failure Sample.ud_rel1 "update" =
    Raise (FetchError
             (Sample.fetcher_failure ("Invalid ccase command " ++ "update"))).
Proof.
  apply (build_ccase_command_refuses Sample.fetcher_failure Sample.ud_rel1
           "update"); discriminate.
Defined.

Example update_is_no_verb :
  _build_ccase_command Sample.fetcher_failure Sample.ud_rel1 "update" =
    Raise (FetchError "Fetcher failure: Invalid ccase command update").
Proof. vm_compute. reflexivity. Qed.

(** ** Initialisation *)

Section Initialisation.

Variable fetch_error_msg : string -> string.

Local Abbreviation init := (urldata_init fetch_error_msg).

Lemma protocol_check (ud : FetchData) :
  protocol_ok ud ->
  negb (String.eqb (match ud_parm ud !! "protocol" with
                    | Some p => p
                    | None => "https"
                    end) "http"
        || String.eqb (match ud_parm ud !! "protocol" with
                       | Some p => p
                       | None => "https"
                       end) "https") = false.
Proof. intros [-> | [-> | ->]]; reflexivity. Qed.

Lemma protocol_check_inv (ud : FetchData) :
  negb (String.eqb (match ud_parm ud !! "protocol" with
                    | Some p => p
                    | None => "https"
                    end) "http"
        || String.eqb (match ud_parm ud !! "protocol" with
                       | Some p => p
                       | None => "https"
                       end) "https") = false ->
  protocol_ok ud.
Proof.
  unfold protocol_ok. destruct (ud_parm ud !! "protocol") as [p|]; [|auto].
  intros H. apply negb_false_iff, orb_true_iff in H.
  destruct H as [H|H]; apply String.eqb_eq in H; subst; auto.
Qed.

(** X4: [urldata_init] returns a descriptor exactly when the protocol
    parameter is absent, http or https, the vob parameter is there, SRCREV
    is not "INVALID" and is set, and DL_DIR is set. *)
Theorem urldata_init_succeeds_iff (ud : FetchData) (d : DataStore) :
  (exists ud', init ud d = Ok ud') <->
  protocol_ok ud /\
  is_Some (ud_parm ud !! "vob") /\
  getVar d "SRCREV" true <> Some "INVALID" /\
  is_Some (getVar d "SRCREV" false) /\
  is_Some (getVar d "DL_DIR" true).
Proof.
  split.
  - intros [ud' H]. unfold urldata_init in H. cbv zeta in H.
    destruct (negb _) eqn:Ep in H; [discriminate H|].
    apply protocol_check_inv in Ep. cbn [rbind] in H.
    destruct (ud_parm ud !! "vob") as [vob|]; [|discriminate H].
    cbn [rbind] in H.
    destruct (getVar d "SRCREV" true) as [rev|] eqn:Erev.
    + destruct (String.eqb_spec rev "INVALID") as [->|Hrev]; [discriminate H|].
      cbn [rbind] in H.
      destruct (getVar d "SRCREV" false) as [label|]; [|discriminate H].
      cbn [rbind] in H.
      destruct (getVar d "DL_DIR" true) as [dl|]; [|discriminate H].
      repeat split; eauto. congruence.
    + cbn [rbind] in H.
      destruct (getVar d "SRCREV" false) as [label|]; [|discriminate H].
      cbn [rbind] in H.
      destruct (getVar d "DL_DIR" true) as [dl|]; [|discriminate H].
      repeat split; eauto.
  - intros (Hp & [vob Hvob] & Hrev & [label Hlabel] & [dl Hdl]).
    unfold urldata_init. cbv zeta. rewrite (protocol_check ud Hp).
    rewrite Hvob, Hlabel, Hdl. cbn [rbind].
    destruct (getVar d "SRCREV" true) as [rev|].
    + destruct (String.eqb_spec rev "INVALID") as [->|_]; [contradiction|].
      cbn [rbind]. eauto.
    + cbn [rbind]. eauto.
Qed.

(** X5: with an acceptable protocol and a vob, SRCREV = "INVALID" makes
    [urldata_init] raise the [FetchError] that asks for a valid SRCREV,
    whatever else the recipe sets. *)
Theorem urldata_init_invalid_srcrev (ud : FetchData) (d : DataStore) :
  protocol_ok ud ->
  is_Some (ud_parm ud !! "vob") ->
  getVar d "SRCREV" true = Some "INVALID" ->
  init ud d = Raise (FetchError (fetch_error_msg invalid_srcrev_message)).
Proof.
  intros Hp [vob Hvob] Hrev. unfold urldata_init. cbv zeta.
  rewrite (protocol_check ud Hp), Hvob, Hrev. reflexivity.
Qed.

(** What [urldata_init] takes over from the url and the recipe. *)
Lemma urldata_init_inputs (ud ud' : FetchData) (d : DataStore) :
  init ud d = Ok ud' ->
  ud_module ud' = match ud_parm ud !! "module" with
                  | Some m => m
                  | None => ""
                  end /\
  ud_basecmd ud' = match getVar d "FETCHCMD_ccrc" true with
                   | Some c => if PyStr.truthy c then c else default_basecmd
                   | None => default_basecmd
                   end /\
  (ud_proto ud' = "http" \/ ud_proto ud' = "https") /\
  ud_server ud' = ud_proto ud' ++ "://" ++ ud_host ud ++ ud_path ud /\
  ud_customspec ud' = getVar d "CCASE_CUSTOM_CONFIG_SPEC" true.
Proof.
  intros H. unfold urldata_init in H. cbv zeta in H.
  destruct (negb _) eqn:Ep in H; [discriminate H|]. cbn [rbind] in H.
  destruct (ud_parm ud !! "vob") as [vob|]; [|discriminate H].
  cbn [rbind] in H.
  destruct (match getVar d "SRCREV" true with
            | Some rev => _
            | None => _
            end); [|discriminate H].
  cbn [rbind] in H.
  destruct (getVar d "SRCREV" false) as [label|]; [|discriminate H].
  cbn [rbind] in H.
  destruct (getVar d "DL_DIR" true) as [dl|]; [|discriminate H].
  cbn [rbind] in H. injection H as <-. cbn.
  repeat split; try reflexivity.
  apply negb_false_iff, orb_true_iff in Ep.
  destruct Ep as [E|E]; apply String.eqb_eq in E; auto.
Qed.

(** X6: the identifier, the config spec name and the name of the archive
    depend on vob, module and label only: two descriptors with the same
    three values get the same ones, whatever server, protocol, client,
    timestamp and download directory they have; in the same download
    directory they get the same archive path. *)
Theorem identifier_of_vob_module_label
    (ud1 ud2 r1 r2 : FetchData) (d1 d2 : DataStore) :
  init ud1 d1 = Ok r1 ->
  init ud2 d2 = Ok r2 ->
  ud_parm ud1 !! "vob" = ud_parm ud2 !! "vob" ->
  ud_parm ud1 !! "module" = ud_parm ud2 !! "module" ->
  getVar d1 "SRCREV" false = getVar d2 "SRCREV" false ->
  ud_identifier r1 = ud_identifier r2 /\
  ud_csname r1 = ud_csname r2 /\
  (getVar d1 "DL_DIR" true = getVar d2 "DL_DIR" true ->
   ud_localfile r1 = ud_localfile r2).
Proof.
  intros H1 H2 Hvob Hmod Hlabel.
  destruct (urldata_init_inputs _ _ _ H1) as (Hm1 & _).
  destruct (urldata_init_inputs _ _ _ H2) as (Hm2 & _).
  apply urldata_init_fields in H1, H2.
  destruct H1 as (dl1 & Hdl1 & Hl1 & Hv1 & Hid1 & _ & Hcs1 & _ & _ & _ & Hlf1 & _).
  destruct H2 as (dl2 & Hdl2 & Hl2 & Hv2 & Hid2 & _ & Hcs2 & _ & _ & _ & Hlf2 & _).
  assert (Hid : ud_identifier r1 = ud_identifier r2).
  { rewrite Hid1, Hid2. rewrite Hm1, Hm2, Hmod.
    replace (ud_vob r1) with (ud_vob r2) by congruence.
    replace (ud_label r1) with (ud_label r2) by congruence.
    reflexivity. }
  split; [exact Hid|]. split; [rewrite Hcs1, Hcs2, Hid; reflexivity|].
  intros Hdl. rewrite Hlf1, Hlf2, Hid.
  replace dl1 with dl2 by congruence. reflexivity.
Qed.

(** X7: without FETCHCMD_ccrc, or with an empty one, the base command is
    "/usr/bin/env cleartool || rcleartool"; it contains "rcleartool", so
    the descriptor counts as the remote client: its mkview command carries
    the server option and no snapshot flag. *)
Theorem default_client_is_remote (ud ud' : FetchData) (d : DataStore) :
  init ud d = Ok ud' ->
  getVar d "FETCHCMD_ccrc" true = None \/ getVar d "FETCHCMD_ccrc" true = Some "" ->
  ud_basecmd ud' = default_basecmd /\
  is_remote ud' = true /\
  ccase_options fetch_error_msg ud' "mkview" =
    Ok ["-server " +:+ ud_server ud'; "-tag " +:+ ud_viewname ud';
        ud_viewdir ud'].
Proof.
  intros H Hcmd. destruct (urldata_init_inputs _ _ _ H) as (_ & Hb & _).
  assert (Hbase : ud_basecmd ud' = default_basecmd).
  { rewrite Hb. destruct Hcmd as [-> | ->]; reflexivity. }
  assert (Hrem : is_remote ud' = true).
  { unfold is_remote. rewrite Hbase. reflexivity. }
  split; [exact Hbase|]. split; [exact Hrem|].
  unfold ccase_options, list_append. rewrite Hrem. reflexivity.
Qed.

End Initialisation.

(** X5, witness: a recipe without SRCREV. *)
Lemma urldata_init_invalid_srcrev_witness :
  urldata_init Sample.fetcher_failure Sample.ud_uri Scenario.d_invalid =
    Raise (FetchError (Sample.fetcher_failure invalid_srcrev_message)).
Proof.
  apply (urldata_init_invalid_srcrev Sample.fetcher_failure
           Sample.ud_uri Scenario.d_invalid).
  - left. reflexivity.
  - eexists. reflexivity.
  - reflexivity.
Defined.

(** X6, witness: the same vob, module and label behind two servers. *)
Lemma identifier_of_vob_module_label_witness :
  ud_identifier (Scenario.initialised Sample.ud_uri Sample.d_rel1) =
    ud_identifier (Scenario.initialised Scenario.ud_other_server Scenario.d_other_dir) /\
  ud_csname (Scenario.initialised Sample.ud_uri Sample.d_rel1) =
    ud_csname (Scenario.initialised Scenario.ud_other_server Scenario.d_other_dir) /\
  (getVar Sample.d_rel1 "DL_DIR" true = getVar Scenario.d_other_dir "DL_DIR" true ->
   ud_localfile (Scenario.initialised Sample.ud_uri Sample.d_rel1) =
     ud_localfile (Scenario.initialised Scenario.ud_other_server Scenario.d_other_dir)).
Proof.
  apply (identifier_of_vob_module_label Sample.fetcher_failure
           Sample.ud_uri Scenario.ud_other_server _ _
           Sample.d_rel1 Scenario.d_other_dir).
  - vm_compute. reflexivity.
  - vm_compute. reflexivity.
  - reflexivity.
  - reflexivity.
  - reflexivity.
Defined.

Example other_server_descriptor :
  ud_server (Scenario.initialised Scenario.ud_other_server Scenario.d_other_dir) =
    "http://cc2.example.org/other" /\
  ud_localfile (Scenario.initialised Scenario.ud_other_server Scenario.d_other_dir) =
    "/srv/downloads/clearcase-vob1.mod1-rel1.tar.gz" /\
  ud_viewdir (Scenario.initialised Scenario.ud_other_server Scenario.d_other_dir) =
    "/srv/downloads/ccrc/clearcase-vob1.mod1-rel1-view20250505050505".
Proof. vm_compute. repeat split; reflexivity. Qed.

(** X7, witness: the recipe of the module documentation sets no
    FETCHCMD_ccrc. *)
Lemma default_client_is_remote_witness :
  ud_basecmd (Scenario.initialised Sample.ud_uri Sample.d_rel1) = default_basecmd /\
  is_remote (Scenario.initialised Sample.ud_uri Sample.d_rel1) = true /\
  ccase_options Sample.fetcher_failure
    (Scenario.initialised Sample.ud_uri Sample.d_rel1) "mkview" =
    Ok ["-server " +:+ ud_server (Scenario.initialised Sample.ud_uri Sample.d_rel1);
        "-tag " +:+ ud_viewname (Scenario.initialised Sample.ud_uri Sample.d_rel1);
        ud_viewdir (Scenario.initialised Sample.ud_uri Sample.d_rel1)].
Proof.
  apply (default_client_is_remote Sample.fetcher_failure
           Sample.ud_uri _ Sample.d_rel1).
  - vm_compute. reflexivity.
  - left. reflexivity.
Defined.

(** ** Names and paths *)

Section Paths.

Variable fetch_error_msg : string -> string.

Lemma append_inj_l (a b c : string) : a ++ b = a ++ c -> b = c.
Proof.
  induction a as [|x a IH]; simpl; intros H; [exact H|].
  injection H as H. apply IH. exact H.
Qed.

Lemma join_relative (a b : string) :
  PyStr.startswith_char OsPath.sep b = false ->
  OsPath.join a b = a ++ join_separator a ++ b.
Proof.
  intros Hb. unfold OsPath.join, join_separator. rewrite Hb.
  destruct (negb (PyStr.truthy a) || PyStr.endswith_char OsPath.sep a);
    reflexivity.
Qed.

Lemma join_relative_inj (a b c : string) :
  PyStr.startswith_char OsPath.sep b = false ->
  PyStr.startswith_char OsPath.sep c = false ->
  OsPath.join a b = OsPath.join a c -> b = c.
Proof.
  intros Hb Hc. rewrite !join_relative by assumption.
  intros H. apply append_inj_l in H. apply append_inj_l in H. exact H.
Qed.

(** The names [urldata_init] makes start with "clearcase-". *)
Lemma urldata_init_names (ud ud' : FetchData) (d : DataStore) :
  urldata_init fetch_error_msg ud d = Ok ud' ->
  exists rest dl_dir,
    getVar d "DL_DIR" true = Some dl_dir /\
    ud_identifier ud' = "clearcase-" ++ rest /\
    ud_viewname ud' =
      "clearcase-" ++ rest ++ "-view" ++ PyStr.fmt (getVar d "DATETIME" true) /\
    ud_csname ud' = "clearcase-" ++ rest ++ "-config-spec" /\
    ud_ccasedir ud' = OsPath.join dl_dir (ud_type ud) /\
    ud_viewdir ud' = OsPath.join (ud_ccasedir ud') (ud_viewname ud') /\
    ud_configspecfile ud' = OsPath.join (ud_ccasedir ud') (ud_csname ud').
Proof.
  intros H. apply urldata_init_fields in H.
  destruct H as (dl & Hdl & _ & _ & Hid & Hvn & Hcs & Hcd & Hvd & Hcf & _).
  eexists. exists dl. split; [exact Hdl|]. split; [exact Hid|].
  split; [rewrite Hvn, Hid; cbn; now rewrite !append_assoc|].
  split; [rewrite Hcs, Hid; cbn; now rewrite !append_assoc|].
  repeat split; assumption.
Qed.

Lemma same_url_same_identifier
    (ud r1 r2 : FetchData) (d1 d2 : DataStore) :
  urldata_init fetch_error_msg ud d1 = Ok r1 ->
  urldata_init fetch_error_msg ud d2 = Ok r2 ->
  getVar d1 "SRCREV" false = getVar d2 "SRCREV" false ->
  ud_identifier r1 = ud_identifier r2.
Proof.
  intros H1 H2 Hlabel.
  destruct (urldata_init_inputs _ _ _ _ H1) as (Hm1 & _).
  destruct (urldata_init_inputs _ _ _ _ H2) as (Hm2 & _).
  apply urldata_init_fields in H1, H2.
  destruct H1 as (dl1 & _ & Hl1 & Hv1 & Hid1 & _).
  destruct H2 as (dl2 & _ & Hl2 & Hv2 & Hid2 & _).
  rewrite Hid1, Hid2, Hm1, Hm2.
  replace (ud_vob r1) with (ud_vob r2) by congruence.
  replace (ud_label r1) with (ud_label r2) by congruence.
  reflexivity.
Qed.

(** X8: the view of a descriptor carries the timestamp of its build: two
    initialisations of the same url with the same label whose DATETIME
    differ get different view names, and in the same download directory
    different view directories. *)
Theorem viewname_per_timestamp
    (ud r1 r2 : FetchData) (d1 d2 : DataStore) :
  urldata_init fetch_error_msg ud d1 = Ok r1 ->
  urldata_init fetch_error_msg ud d2 = Ok r2 ->
  getVar d1 "SRCREV" false = getVar d2 "SRCREV" false ->
  PyStr.fmt (getVar d1 "DATETIME" true) <> PyStr.fmt (getVar d2 "DATETIME" true) ->
  ud_identifier r1 = ud_identifier r2 /\
  ud_viewname r1 <> ud_viewname r2 /\
  (getVar d1 "DL_DIR" true = getVar d2 "DL_DIR" true ->
   ud_viewdir r1 <> ud_viewdir r2).
Proof.
  intros H1 H2 Hlabel Htime.
  pose proof (same_url_same_identifier ud r1 r2 d1 d2 H1 H2 Hlabel) as Hid.
  destruct (urldata_init_names _ _ _ H1)
    as (rest1 & dl1 & Hdl1 & Hi1 & Hv1 & _ & Hc1 & Hvd1 & _).
  destruct (urldata_init_names _ _ _ H2)
    as (rest2 & dl2 & Hdl2 & Hi2 & Hv2 & _ & Hc2 & Hvd2 & _).
  assert (Hrest : rest1 = rest2).
  { rewrite Hi1, Hi2 in Hid. apply append_inj_l in Hid. exact Hid. }
  subst rest2.
  assert (Hvn : ud_viewname r1 <> ud_viewname r2).
  { rewrite Hv1, Hv2. intros E. apply Htime.
    do 3 apply append_inj_l in E. exact E. }
  split; [exact Hid|]. split; [exact Hvn|].
  intros Hdl. rewrite Hvd1, Hvd2, Hc1, Hc2.
  replace dl2 with dl1 by congruence. intros E. apply Hvn.
  apply join_relative_inj in E; [exact E | rewrite Hv1 | rewrite Hv2];
    reflexivity.
Qed.

(** X9: the config spec file, the view directory and the copy of the
    config spec inside the view are three different paths: [download]
    never copies the config spec onto itself. *)
Theorem derived_paths_distinct (ud ud' : FetchData) (d : DataStore) :
  urldata_init fetch_error_msg ud d = Ok ud' ->
  ud_viewname ud' <> ud_csname ud' /\
  ud_viewdir ud' <> ud_configspecfile ud' /\
  OsPath.join (ud_viewdir ud') (ud_csname ud') <> ud_configspecfile ud' /\
  OsPath.join (ud_viewdir ud') (ud_csname ud') <> ud_viewdir ud'.
Proof.
  intros H.
  destruct (urldata_init_names _ _ _ H)
    as (rest & dl & _ & _ & Hv & Hc & _ & Hvd & Hcf).
  assert (Hv0 : PyStr.startswith_char OsPath.sep (ud_viewname ud') = false)
    by (rewrite Hv; reflexivity).
  assert (Hc0 : PyStr.startswith_char OsPath.sep (ud_csname ud') = false)
    by (rewrite Hc; reflexivity).
  assert (Hne : ud_viewname ud' <> ud_csname ud').
  { rewrite Hv, Hc. intros E. do 2 apply append_inj_l in E.
    cbn in E. discriminate E. }
  split; [exact Hne|]. split; [|split].
  - rewrite Hvd, Hcf. intros E. apply Hne.
    apply join_relative_inj in E; assumption.
  - rewrite (join_relative (ud_viewdir ud')) by exact Hc0.
    rewrite Hvd, Hcf. rewrite !join_relative by assumption.
    rewrite !append_assoc. intros E. do 2 apply append_inj_l in E.
    apply (f_equal String.length) in E. rewrite !length_append in E.
    rewrite Hv in E at 1. cbn in E. lia.
  - rewrite (join_relative (ud_viewdir ud')) by exact Hc0.
    intros E. apply (f_equal String.length) in E.
    rewrite !length_append in E. rewrite Hc in E at 1. cbn in E. lia.
Qed.

Lemma head_of_cons (c : ascii) (rest : string) :
  OsPath.head_of (String c rest) =
    if PyStr.has_char OsPath.sep rest then String c (OsPath.head_of rest)
    else if Ascii.eqb c OsPath.sep then String c "" else "".
Proof. reflexivity. Qed.

Lemma has_separator_inside (a b : string) :
  PyStr.has_char OsPath.sep (a ++ "/" ++ b) = true.
Proof. rewrite !has_char_append. cbn. apply orb_true_r. Qed.

Lemma head_of_append (a b : string) :
  PyStr.has_char OsPath.sep b = false ->
  OsPath.head_of (a ++ "/" ++ b) = a ++ "/".
Proof.
  intros Hb. induction a as [|c a IH].
  - change ("" ++ "/" ++ b) with (String "/" b).
    rewrite head_of_cons, Hb. reflexivity.
  - change (String c a ++ "/" ++ b) with (String c (a ++ "/" ++ b)).
    rewrite head_of_cons, has_separator_inside, IH. reflexivity.
Qed.

Lemma rstrip_sep_append (a : string) :
  PyStr.endswith_char OsPath.sep a = false ->
  OsPath.rstrip_sep (a ++ "/") = a.
Proof.
  induction a as [|c a IH]; [reflexivity|]. intros H.
  destruct a as [|c' a].
  - cbn in *. rewrite H. reflexivity.
  - change (String c (String c' a) ++ "/") with (String c (String c' a ++ "/")).
    cbn [OsPath.rstrip_sep]. cbn [OsPath.rstrip_sep] in IH.
    rewrite IH by exact H. reflexivity.
Qed.

Lemma all_sep_append (a b : string) :
  OsPath.all_sep (a ++ b) = OsPath.all_sep a && OsPath.all_sep b.
Proof.
  induction a as [|c a IH]; cbn; [reflexivity|].
  rewrite IH. now rewrite andb_assoc.
Qed.

Lemma not_all_sep (a : string) :
  PyStr.truthy a = true -> PyStr.endswith_char OsPath.sep a = false ->
  OsPath.all_sep a = false.
Proof.
  induction a as [|c a IH]; [discriminate|]. intros _ H.
  destruct a as [|c' a].
  - cbn in *. rewrite H. reflexivity.
  - change (OsPath.all_sep (String c (String c' a)))
      with (Ascii.eqb c OsPath.sep && OsPath.all_sep (String c' a)).
    rewrite (IH eq_refl H). apply andb_false_r.
Qed.

(** [os.path.dirname] of an entry of a directory is the directory. *)
Lemma dirname_entry (a b : string) :
  PyStr.truthy a = true -> PyStr.endswith_char OsPath.sep a = false ->
  PyStr.has_char OsPath.sep b = false ->
  OsPath.dirname (a ++ "/" ++ b) = a.
Proof.
  intros Ha Hend Hb. unfold OsPath.dirname. rewrite head_of_append by exact Hb.
  rewrite all_sep_append, (not_all_sep a Ha Hend).
  destruct a; [discriminate|]. cbn [PyStr.truthy String.append andb negb].
  apply (rstrip_sep_append (String a a0)). exact Hend.
Qed.

Lemma endswith_append (c : ascii) (a b : string) :
  PyStr.truthy b = true ->
  PyStr.endswith_char c (a ++ b) = PyStr.endswith_char c b.
Proof.
  intros Hb. induction a as [|x a IH]; [reflexivity|].
  cbn [String.append PyStr.endswith_char].
  destruct (a ++ b) eqn:E; [|exact IH].
  destruct a; [cbn in E; subst; discriminate | discriminate].
Qed.

(** For a ccrc url the config spec file lies in the ccase directory, the
    one [download] makes before it writes the file. *)
Lemma configspecfile_in_ccasedir (ud ud' : FetchData) (d : DataStore) :
  urldata_init fetch_error_msg ud d = Ok ud' ->
  ud_type ud = "ccrc" ->
  OsPath.dirname (ud_configspecfile ud') = ud_ccasedir ud'.
Proof.
  intros H Htype. pose proof H as H'.
  apply urldata_init_fields in H'.
  destruct H' as (dl & _ & _ & _ & Hid & _ & Hcs & Hcd & _ & Hcf & _).
  assert (Hdir : ud_ccasedir ud' = dl ++ join_separator dl ++ "ccrc").
  { rewrite Hcd, Htype. apply join_relative. reflexivity. }
  assert (Hend : PyStr.endswith_char OsPath.sep (ud_ccasedir ud') = false).
  { rewrite Hdir, <- append_assoc. rewrite endswith_append; reflexivity. }
  assert (Hne : PyStr.truthy (ud_ccasedir ud') = true).
  { rewrite Hdir. destruct dl; [|reflexivity].
    destruct (join_separator ""); reflexivity. }
  assert (Hname : PyStr.has_char OsPath.sep (ud_csname ud') = false).
  { rewrite Hcs, has_char_append, Hid, identifier_has_no_separator.
    reflexivity. }
  assert (Hrel : PyStr.startswith_char OsPath.sep (ud_csname ud') = false).
  { rewrite Hcs, Hid. reflexivity. }
  rewrite Hcf, (join_relative _ _ Hrel). unfold join_separator.
  rewrite Hne, Hend. cbn [negb orb].
  apply dirname_entry; assumption.
Qed.

End Paths.

(** X8, witness: the recipe of the module documentation, built twice. *)
Lemma viewname_per_timestamp_witness :
  ud_identifier (Scenario.initialised Sample.ud_uri Sample.d_rel1) =
    ud_identifier (Scenario.initialised Sample.ud_uri Scenario.d_rel1_later) /\
  ud_viewname (Scenario.initialised Sample.ud_uri Sample.d_rel1) <>
    ud_viewname (Scenario.initialised Sample.ud_uri Scenario.d_rel1_later) /\
  (getVar Sample.d_rel1 "DL_DIR" true = getVar Scenario.d_rel1_later "DL_DIR" true ->
   ud_viewdir (Scenario.initialised Sample.ud_uri Sample.d_rel1) <>
     ud_viewdir (Scenario.initialised Sample.ud_uri Scenario.d_rel1_later)).
Proof.
  apply (viewname_per_timestamp Sample.fetcher_failure Sample.ud_uri _ _
           Sample.d_rel1 Scenario.d_rel1_later).
  - vm_compute. reflexivity.
  - vm_compute. reflexivity.
  - reflexivity.
  - vm_compute. discriminate.
Defined.

(** X9, witness: the recipe of the module documentation. *)
Lemma derived_paths_distinct_witness :
  ud_viewname (Scenario.initialised Sample.ud_uri Sample.d_rel1) <>
    ud_csname (Scenario.initialised Sample.ud_uri Sample.d_rel1) /\
  ud_viewdir (Scenario.initialised Sample.ud_uri Sample.d_rel1) <>
    ud_configspecfile (Scenario.initialised Sample.ud_uri Sample.d_rel1) /\
  OsPath.join (ud_viewdir (Scenario.initialised Sample.ud_uri Sample.d_rel1))
              (ud_csname (Scenario.initialised Sample.ud_uri Sample.d_rel1)) <>
    ud_configspecfile (Scenario.initialised Sample.ud_uri Sample.d_rel1) /\
  OsPath.join (ud_viewdir (Scenario.initialised Sample.ud_uri Sample.d_rel1))
              (ud_csname (Scenario.initialised Sample.ud_uri Sample.d_rel1)) <>
    ud_viewdir (Scenario.initialised Sample.ud_uri Sample.d_rel1).
Proof.
  apply (derived_paths_distinct Sample.fetcher_failure
           Sample.ud_uri _ Sample.d_rel1).
  vm_compute. reflexivity.
Defined.

(** ** Commands and the network check *)

Section Guarded.

Variable runfetchcmd :
  string -> DataStore -> option string -> list string -> FS -> Result string * FS.
Variable check_network_access : DataStore -> string -> string -> Result unit.
Variable fetch_error_msg : string -> string.
Variable d : DataStore.
Variable tar : string.

Local Abbreviation policy := (check_network_access d).
Local Abbreviation run' := (run runfetchcmd).
Local Abbreviation net_check' := (net_check check_network_access).
Local Abbreviation clean' :=
  (clean runfetchcmd check_network_access fetch_error_msg).
Local Abbreviation download' :=
  (download runfetchcmd check_network_access fetch_error_msg).

Lemma all_checked_app (evs evs' : list Event) :
  all_checked policy tar evs -> all_checked policy tar evs' ->
  all_checked policy tar (evs ++ evs')%list.
Proof.
  intros H H'. induction H; cbn; [exact H' | | |].
  - apply checked_call. exact IHall_checked.
  - apply checked_run; assumption.
  - apply checked_tar. exact IHall_checked.
Qed.

Lemma guarded_after (evs evs' : list Event) :
  all_checked policy tar evs -> guarded policy tar evs' ->
  guarded policy tar (evs ++ evs')%list.
Proof.
  intros H [evs0 H0 | evs0 cmd url e H0 Hpol].
  - apply guarded_passed. apply all_checked_app; assumption.
  - rewrite app_assoc. apply (guarded_refused _ _ _ _ _ e); [|exact Hpol].
    apply all_checked_app; assumption.
Qed.

Lemma guarded_silent {A : Type} (m : M A) :
  emits (fun _ => False) m -> runs_guarded policy tar m.
Proof.
  intros H w. destruct (H w) as (evs & Ht & Hall). exists evs.
  split; [exact Ht|]. destruct Hall as [|ev evs []].
  split; [apply guarded_passed|intros _ _]; constructor.
Qed.

Lemma guarded_call_event (method : string) :
  runs_guarded policy tar (emit (Call method)).
Proof.
  intros w. exists [Call method]. split; [reflexivity|].
  split; [apply guarded_passed|intros _ _]; repeat constructor.
Qed.

Lemma guarded_bind {A B : Type} (m : M A) (k : A -> M B) :
  runs_guarded policy tar m -> (forall a, runs_guarded policy tar (k a)) ->
  runs_guarded policy tar (bind m k).
Proof.
  intros Hm Hk w. unfold bind.
  destruct (Hm w) as (evs & Ht & Hg & Hok).
  destruct (m w) as [[a|e] w1]; cbn [fst snd] in *.
  - specialize (Hok a eq_refl).
    destruct (Hk a w1) as (evs' & Ht' & Hg' & Hok').
    exists (evs ++ evs')%list. rewrite Ht', Ht, <- app_assoc.
    split; [reflexivity|]. split; [apply guarded_after; assumption|].
    intros b Hb. apply all_checked_app; [exact Hok | exact (Hok' b Hb)].
  - exists evs. split; [exact Ht|]. split; [exact Hg|]. intros a Ha.
    discriminate Ha.
Qed.

(** A check, then the command it was asked for, then the rest of the
    run: the command and the rest only come when the check has passed. *)
Lemma guarded_checked_command {A B : Type}
    (cmd url : string) (workdir : option string) (c : M A) (k : A -> M B) :
  (forall w, trace (snd (c w)) = (trace w ++ [Run cmd workdir])%list) ->
  (forall a, runs_guarded policy tar (k a)) ->
  runs_guarded policy tar
    (let* _ := net_check' d cmd url in let* a := c in k a).
Proof.
  intros Hc Hk w.
  destruct (check_network_access d cmd url) as [[]|e] eqn:Hpol.
  - rewrite (bind_ok _ _ w
               {| fs := fs w; trace := (trace w ++ [NetCheck cmd url])%list |} tt)
      by (rewrite net_check_run, Hpol; reflexivity).
    specialize (Hc {| fs := fs w;
                      trace := (trace w ++ [NetCheck cmd url])%list |}).
    destruct (c _) as [[a|e] w2] eqn:Ec; cbn [snd trace] in Hc.
    + rewrite (bind_ok _ _ _ _ _ Ec).
      destruct (Hk a w2) as (evs & Ht & Hg & Hok).
      exists (NetCheck cmd url :: Run cmd workdir :: evs). split.
      * rewrite Ht, Hc, <- !app_assoc. reflexivity.
      * split.
        -- apply (guarded_after [NetCheck cmd url; Run cmd workdir]);
             [|exact Hg].
           apply checked_run; [exact Hpol | constructor].
        -- intros b Hb. apply checked_run; [exact Hpol | exact (Hok b Hb)].
    + rewrite (bind_raise _ _ _ _ _ Ec).
      exists [NetCheck cmd url; Run cmd workdir]. split.
      * cbn [snd]. rewrite Hc, <- app_assoc. reflexivity.
      * split; [apply guarded_passed; apply checked_run;
                [exact Hpol | constructor]|].
        intros b Hb. discriminate Hb.
  - rewrite (bind_raise _ _ w
               {| fs := fs w; trace := (trace w ++ [NetCheck cmd url])%list |} e)
      by (rewrite net_check_run, Hpol; reflexivity).
    exists [NetCheck cmd url]. split; [reflexivity|]. split.
    + apply (guarded_refused _ _ [] cmd url e); [constructor | exact Hpol].
    + intros b Hb. discriminate Hb.
Qed.

Lemma run_trace (cmd : string) (d' : DataStore) (workdir : option string)
    (cleanup : list string) (w : World) :
  trace (snd (run' cmd d' workdir cleanup w)) =
    (trace w ++ [Run cmd workdir])%list.
Proof.
  destruct (runfetchcmd cmd d' workdir cleanup (fs w)) as [r s2] eqn:E.
  rewrite (run_run _ _ _ _ _ _ _ _ E). reflexivity.
Qed.

Lemma mkview_handler_raises (e : Exc) (w : World) :
  exists e', mkview_handler fetch_error_msg e w = (Raise e', w).
Proof.
  destruct e; cbn; eauto.
  destruct (PyStr.contains "CRCLI2008E" msg); cbn; eauto.
Qed.

Lemma try_mkview_trace (cmd : string) (d' : DataStore) (w : World) :
  trace (snd (try_except (run' cmd d' None [])
                (mkview_handler fetch_error_msg) w)) =
    (trace w ++ [Run cmd None])%list.
Proof.
  unfold try_except. pose proof (run_trace cmd d' None [] w) as H.
  destruct (run' cmd d' None [] w) as [[a|e] w1]; cbn [snd] in *; [exact H|].
  destruct (mkview_handler_raises e w1) as (e' & ->). exact H.
Qed.

Lemma guarded_tar_command {B : Type} (workdir : option string)
    (cleanup : list string) (k : string -> M B) :
  (forall a, runs_guarded policy tar (k a)) ->
  runs_guarded policy tar (let* a := run' tar d workdir cleanup in k a).
Proof.
  intros Hk w. pose proof (run_trace tar d workdir cleanup w) as H.
  destruct (run' tar d workdir cleanup w) as [[a|e] w1] eqn:Er; cbn [snd] in H.
  - rewrite (bind_ok _ _ _ _ _ Er).
    destruct (Hk a w1) as (evs & Ht & Hg & Hok). exists (Run tar workdir :: evs).
    split; [rewrite Ht, H, <- app_assoc; reflexivity|]. split.
    + apply (guarded_after [Run tar workdir]); [|exact Hg].
      apply checked_tar. constructor.
    + intros b Hb. apply checked_tar. exact (Hok b Hb).
  - rewrite (bind_raise _ _ _ _ _ Er).
    exists [Run tar workdir]. split; [exact H|]. split.
    + apply guarded_passed, checked_tar. constructor.
    + intros b Hb. discriminate Hb.
Qed.

Ltac silent := apply guarded_silent; auto with emits.

Lemma clean_guarded (ud : FetchData) :
  runs_guarded policy tar (clean' ud d).
Proof.
  unfold clean, _remove_view.
  apply guarded_bind; [apply guarded_call_event | intros _].
  apply guarded_bind; [|intros _; unfold bb_utils_remove; silent].
  apply guarded_bind; [apply guarded_call_event | intros _].
  apply guarded_bind; [silent | intros s].
  destruct (os_path_exists (ud_viewdir ud) s); [|silent].
  apply guarded_bind; [silent | intros cmd].
  eapply guarded_checked_command; [intros w; apply run_trace | intros _; silent].
Qed.

Lemma download_guarded (ud : FetchData) :
  tar = tar_command ud -> runs_guarded policy tar (download' ud d).
Proof.
  intros Htar. unfold download, download_steps, _write_configspec.
  apply guarded_bind; [|intros _; apply clean_guarded].
  apply guarded_bind; [apply guarded_call_event | intros _].
  apply guarded_bind; [unfold bb_utils_mkdirhier; silent | intros _].
  apply guarded_bind;
    [apply guarded_bind;
       [apply guarded_call_event | intros _; unfold open_write; silent]
    | intros _].
  apply guarded_bind; [silent | intros cmd].
  eapply guarded_checked_command; [intros w; apply try_mkview_trace | intros _].
  apply guarded_bind; [silent | intros cmd'].
  eapply guarded_checked_command; [intros w; apply run_trace | intros _].
  apply guarded_bind; [unfold shutil_copyfile; silent | intros _].
  rewrite <- Htar. apply guarded_tar_command. intros _. silent.
Qed.

End Guarded.

(** X10: whatever the client and the network policy do, in a run of
    [download], and in a run of [clean], every command handed to
    [runfetchcmd] other than tar comes right after a network check of this
    very command line that has passed; a check that is refused is the last
    event of the run, so the command it was asked for, and every later one,
    is not run; and a run that returns has passed all its checks. *)
Theorem commands_are_checked
    (runfetchcmd :
       string -> DataStore -> option string -> list string -> FS ->
       Result string * FS)
    (check_network_access : DataStore -> string -> string -> Result unit)
    (fetch_error_msg : string -> string)
    (ud : FetchData) (d : DataStore) :
  runs_guarded (check_network_access d) (tar_command ud)
    (download runfetchcmd check_network_access fetch_error_msg ud d) /\
  runs_guarded (check_network_access d) (tar_command ud)
    (clean runfetchcmd check_network_access fetch_error_msg ud d).
Proof.
  split; [apply download_guarded; reflexivity | apply clean_guarded].
Qed.

(** ** Runs of [download] and [clean] *)

Section Runs.

Variable runfetchcmd :
  string -> DataStore -> option string -> list string -> FS -> Result string * FS.
Variable check_network_access : DataStore -> string -> string -> Result unit.
Variable fetch_error_msg : string -> string.

Local Abbreviation build := (_build_ccase_command fetch_error_msg).
Local Abbreviation run' := (run runfetchcmd).
Local Abbreviation net_check' := (net_check check_network_access).
Local Abbreviation remove_view :=
  (_remove_view runfetchcmd check_network_access fetch_error_msg).
Local Abbreviation clean' :=
  (clean runfetchcmd check_network_access fetch_error_msg).
Local Abbreviation download_steps' :=
  (download_steps runfetchcmd check_network_access fetch_error_msg).
Local Abbreviation download' :=
  (download runfetchcmd check_network_access fetch_error_msg).

(** X11: when the network check of the mkview command is refused,
    [download] raises the error of the check; the cache directory and the
    config spec have been made, and no command has been run. *)
Theorem download_network_refused
    (ud : FetchData) (d : DataStore) (w : World) (cmd : string) (e : Exc) :
  files (fs w) !! ud_ccasedir ud = None ->
  ud_configspecfile ud ∉ {[ ud_ccasedir ud ]} ∪ dirs (fs w) ->
  OsPath.dirname (ud_configspecfile ud) = ud_ccasedir ud ->
  build ud "mkview" = Ok cmd ->
  check_network_access d cmd (ud_url ud) = Raise e ->
  download' ud d w =
    (Raise e,
     {| fs := prepared ud d (fs w);
        trace := (trace w ++ [Call "download"; Call "_write_configspec";
                              NetCheck cmd (ud_url ud)])%list |}).
Proof.
  intros Hdir Hcs Hin Hcmd Hnet.
  unfold download. erewrite bind_raise; [reflexivity|].
  unfold download_steps. rewrite bind_emit.
  erewrite bind_ok by (apply mkdirhier_run; exact Hdir).
  erewrite bind_ok
    by (apply write_configspec_run; [exact Hcs | apply parent_made; exact Hin]).
  rewrite Hcmd, bind_lift_ok.
  erewrite bind_raise; [reflexivity|].
  rewrite net_check_run, Hnet. cbn [fs trace]. rewrite <- !app_assoc.
  reflexivity.
Qed.

Lemma remove_view_run
    (ud : FetchData) (d : DataStore) (w : World) (cmd : string)
    (r : Result string) (s2 : FS) :
  os_path_exists (ud_viewdir ud) (fs w) = true ->
  build ud "rmview" = Ok cmd ->
  check_network_access d cmd (ud_url ud) = Ok tt ->
  runfetchcmd cmd d (Some (ud_ccasedir ud)) [] (fs w) = (r, s2) ->
  remove_view ud d w =
    (match r with
     | Ok _ => Ok tt
     | Raise e => Raise e
     end,
     {| fs := s2;
        trace := (trace w ++ [Call "_remove_view";
                              NetCheck cmd (ud_url ud);
                              Run cmd (Some (ud_ccasedir ud))])%list |}).
Proof.
  intros Hview Hcmd Hnet Hrun.
  unfold _remove_view. rewrite bind_emit.
  unfold bind at 1. cbn [get_fs fs trace]. rewrite Hview.
  rewrite Hcmd, bind_lift_ok.
  erewrite bind_ok by (rewrite net_check_run, Hnet; reflexivity).
  destruct r as [out|e].
  - erewrite bind_ok by (apply run_run; exact Hrun).
    unfold ret. cbn [fs trace]. rewrite <- !app_assoc. reflexivity.
  - erewrite bind_raise by (apply run_run; exact Hrun).
    cbn [fs trace]. rewrite <- !app_assoc. reflexivity.
Qed.

Lemma remove_view_refused
    (ud : FetchData) (d : DataStore) (w : World) (cmd : string) (e : Exc) :
  os_path_exists (ud_viewdir ud) (fs w) = true ->
  build ud "rmview" = Ok cmd ->
  check_network_access d cmd (ud_url ud) = Raise e ->
  remove_view ud d w =
    (Raise e,
     {| fs := fs w;
        trace := (trace w ++ [Call "_remove_view";
                              NetCheck cmd (ud_url ud)])%list |}).
Proof.
  intros Hview Hcmd Hnet.
  unfold _remove_view. rewrite bind_emit.
  unfold bind at 1. cbn [get_fs fs trace]. rewrite Hview.
  rewrite Hcmd, bind_lift_ok.
  erewrite bind_raise by (rewrite net_check_run, Hnet; reflexivity).
  cbn [fs trace]. rewrite <- !app_assoc. reflexivity.
Qed.

(** X12: with the view directory present, [clean] checks the rmview
    command and runs it in the ccase directory.  When rmview succeeds the
    config spec file is deleted from what rmview left; when it fails,
    [clean] raises its error and the config spec file is not touched. *)
Theorem clean_existing_view
    (ud : FetchData) (d : DataStore) (w : World) (cmd : string)
    (r : Result string) (s2 : FS) :
  os_path_exists (ud_viewdir ud) (fs w) = true ->
  build ud "rmview" = Ok cmd ->
  check_network_access d cmd (ud_url ud) = Ok tt ->
  runfetchcmd cmd d (Some (ud_ccasedir ud)) [] (fs w) = (r, s2) ->
  clean' ud d w =
    (match r with
     | Ok _ => Ok tt
     | Raise e => Raise e
     end,
     {| fs := match r with
              | Ok _ => {| files := delete (ud_configspecfile ud) (files s2);
                           dirs := dirs s2 |}
              | Raise _ => s2
              end;
        trace := (trace w ++ [Call "clean"; Call "_remove_view";
                              NetCheck cmd (ud_url ud);
                              Run cmd (Some (ud_ccasedir ud))])%list |}).
Proof.
  intros Hview Hcmd Hnet Hrun.
  unfold clean. rewrite bind_emit.
  pose proof (remove_view_run ud d
                {| fs := fs w; trace := (trace w ++ [Call "clean"])%list |}
                cmd r s2 Hview Hcmd Hnet Hrun) as Hrv.
  destruct r as [out|e].
  - erewrite bind_ok by exact Hrv.
    unfold bb_utils_remove, on_fs. cbn [fs trace].
    rewrite <- !app_assoc. reflexivity.
  - erewrite bind_raise by exact Hrv.
    cbn [fs trace]. rewrite <- !app_assoc. reflexivity.
Qed.

(** X13: with the view directory present and the network check of rmview
    refused, [clean] raises the error of the check: rmview is not run and
    the file system, config spec file included, stays as it is. *)
Theorem clean_network_refused
    (ud : FetchData) (d : DataStore) (w : World) (cmd : string) (e : Exc) :
  os_path_exists (ud_viewdir ud) (fs w) = true ->
  build ud "rmview" = Ok cmd ->
  check_network_access d cmd (ud_url ud) = Raise e ->
  clean' ud d w =
    (Raise e,
     {| fs := fs w;
        trace := (trace w ++ [Call "clean"; Call "_remove_view";
                              NetCheck cmd (ud_url ud)])%list |}).
Proof.
  intros Hview Hcmd Hnet.
  unfold clean. rewrite bind_emit.
  erewrite bind_raise
    by exact (remove_view_refused ud d
                {| fs := fs w; trace := (trace w ++ [Call "clean"])%list |}
                cmd e Hview Hcmd Hnet).
  cbn [fs trace]. rewrite <- !app_assoc. reflexivity.
Qed.

Lemma bind_ok_inv {A B : Type} (m : M A) (k : A -> M B)
    (w w' : World) (b : B) :
  bind m k w = (Ok b, w') ->
  exists a w1, m w = (Ok a, w1) /\ k a w1 = (Ok b, w').
Proof.
  unfold bind. destruct (m w) as [[a|e] w1]; [eauto | discriminate].
Qed.

Lemma on_fs_trace {A : Type} (f : FS -> Result A * FS)
    (w w' : World) (r : Result A) :
  on_fs f w = (r, w') -> trace w' = trace w.
Proof. unfold on_fs. destruct (f (fs w)). intros H. injection H as _ <-. reflexivity. Qed.

Lemma run_result_trace (cmd : string) (d : DataStore) (workdir : option string)
    (cleanup : list string) (w w' : World) (r : Result string) :
  run' cmd d workdir cleanup w = (r, w') ->
  trace w' = (trace w ++ [Run cmd workdir])%list.
Proof.
  intros H. pose proof (run_trace runfetchcmd cmd d workdir cleanup w) as T.
  rewrite H in T. exact T.
Qed.

Lemma try_mkview_result_trace (cmd : string) (d : DataStore)
    (w w' : World) (r : Result string) :
  try_except (run' cmd d None []) (mkview_handler fetch_error_msg) w = (r, w') ->
  trace w' = (trace w ++ [Run cmd None])%list.
Proof.
  intros H. pose proof (try_mkview_trace runfetchcmd fetch_error_msg cmd d w) as T.
  rewrite H in T. exact T.
Qed.

Lemma lift_ok_inv {A : Type} (r : Result A) (w w' : World) (a : A) :
  lift r w = (Ok a, w') -> r = Ok a /\ w' = w.
Proof. unfold lift. intros H. injection H as -> ->. auto. Qed.

Lemma net_check_ok_inv (d : DataStore) (cmd url : string) (w w' : World) :
  net_check' d cmd url w = (Ok tt, w') ->
  check_network_access d cmd url = Ok tt /\
  trace w' = (trace w ++ [NetCheck cmd url])%list.
Proof.
  rewrite net_check_run. intros H. injection H as H <-. auto.
Qed.

Lemma run_fs (cmd : string) (d : DataStore) (workdir : option string)
    (cleanup : list string) (w w' : World) (r : Result string) :
  run' cmd d workdir cleanup w = (r, w') ->
  runfetchcmd cmd d workdir cleanup (fs w) = (r, fs w').
Proof.
  destruct (runfetchcmd cmd d workdir cleanup (fs w)) as [r0 s2] eqn:E.
  rewrite (run_run _ _ _ _ _ _ _ _ E). intros H. injection H as <- <-.
  reflexivity.
Qed.

(** The steps of a [download] that reaches [clean]. *)
Lemma download_steps_ok_trace
    (ud : FetchData) (d : DataStore) (w w1 : World) :
  download_steps' ud d w = (Ok tt, w1) ->
  exists mk st s out,
    build ud "mkview" = Ok mk /\ build ud "setcs" = Ok st /\
    check_network_access d mk (ud_url ud) = Ok tt /\
    check_network_access d st (ud_url ud) = Ok tt /\
    runfetchcmd (tar_command ud) d None [ud_localpath ud] s = (Ok out, fs w1) /\
    trace w1 =
      (trace w ++ [Call "download"; Call "_write_configspec";
                   NetCheck mk (ud_url ud); Run mk None;
                   NetCheck st (ud_url ud); Run st (Some (ud_viewdir ud));
                   Run (tar_command ud) None])%list.
Proof.
  intros H. unfold download_steps in H. rewrite bind_emit in H.
  apply bind_ok_inv in H as (? & wa & Ha & H).
  unfold bb_utils_mkdirhier in Ha. apply on_fs_trace in Ha as Ta.
  cbn [trace] in Ta.
  apply bind_ok_inv in H as (? & wb & Hb & H).
  unfold _write_configspec in Hb. rewrite bind_emit in Hb.
  unfold open_write in Hb. apply on_fs_trace in Hb as Tb.
  cbn [trace] in Tb.
  apply bind_ok_inv in H as (mk & wc & Hc & H).
  apply lift_ok_inv in Hc as [Hmk ->].
  apply bind_ok_inv in H as ([] & wd & Hd & H).
  apply net_check_ok_inv in Hd as [Hn1 Td].
  apply bind_ok_inv in H as (? & we & He & H).
  apply try_mkview_result_trace in He as Te.
  apply bind_ok_inv in H as (st & wf & Hf & H).
  apply lift_ok_inv in Hf as [Hst ->].
  apply bind_ok_inv in H as ([] & wg & Hg & H).
  apply net_check_ok_inv in Hg as [Hn2 Tg].
  apply bind_ok_inv in H as (? & wh & Hh & H).
  apply run_result_trace in Hh as Th.
  apply bind_ok_inv in H as (? & wi & Hi & H).
  unfold shutil_copyfile in Hi. apply on_fs_trace in Hi as Ti.
  apply bind_ok_inv in H as (out & wj & Hj & H).
  apply run_result_trace in Hj as Tj. apply run_fs in Hj.
  unfold ret in H. injection H as <-.
  exists mk, st, (fs wi), out. repeat split; try assumption.
  rewrite Tj, Ti, Th, Tg, Te, Td, Tb, Ta. rewrite <- !app_assoc. reflexivity.
Qed.

(** The commands of a [clean] that returns. *)
Lemma clean_ok_trace (ud : FetchData) (d : DataStore) (w w' : World) :
  clean' ud d w = (Ok tt, w') ->
  exists evs,
    trace w' = (trace w ++ [Call "clean"; Call "_remove_view"] ++ evs)%list /\
    (os_path_exists (ud_viewdir ud) (fs w) = false /\ evs = [] \/
     os_path_exists (ud_viewdir ud) (fs w) = true /\
     exists rm,
       build ud "rmview" = Ok rm /\
       check_network_access d rm (ud_url ud) = Ok tt /\
       evs = [NetCheck rm (ud_url ud); Run rm (Some (ud_ccasedir ud))]).
Proof.
  intros H. unfold clean in H. rewrite bind_emit in H.
  apply bind_ok_inv in H as ([] & w2 & Hrv & H).
  unfold bb_utils_remove in H. apply on_fs_trace in H as T.
  rewrite T. clear H T.
  unfold _remove_view in Hrv. rewrite bind_emit in Hrv.
  unfold bind at 1 in Hrv. cbn [get_fs fs trace] in Hrv.
  destruct (os_path_exists (ud_viewdir ud) (fs w)) eqn:Hview.
  - apply bind_ok_inv in Hrv as (rm & wa & Ha & Hrv).
    apply lift_ok_inv in Ha as [Hrm ->].
    apply bind_ok_inv in Hrv as ([] & wb & Hb & Hrv).
    apply net_check_ok_inv in Hb as [Hn Tb].
    apply bind_ok_inv in Hrv as (? & wc & Hc & Hrv).
    apply run_result_trace in Hc as Tc.
    unfold ret in Hrv. injection Hrv as <-.
    exists [NetCheck rm (ud_url ud); Run rm (Some (ud_ccasedir ud))].
    split; [|right; eauto 6].
    rewrite Tc, Tb. cbn [trace]. rewrite <- !app_assoc. reflexivity.
  - unfold ret in Hrv. injection Hrv as <-. exists []. split; [|left; auto].
    cbn [trace]. rewrite <- !app_assoc. reflexivity.
Qed.

(** X14: a [download] that returns has gone through the life cycle in
    order: config spec written, mkview and setcs each run after its network
    check has passed (setcs inside the view directory), tar, then [clean]
    from the file system tar left.  If the view directory exists there,
    [clean] has checked and run rmview in the ccase directory; if it does
    not, [clean] has run nothing.  At the end the config spec file is
    gone. *)
Theorem download_ok_order (ud : FetchData) (d : DataStore) (w w' : World) :
  download' ud d w = (Ok tt, w') ->
  exists mk st w1 s out evs,
    build ud "mkview" = Ok mk /\ build ud "setcs" = Ok st /\
    check_network_access d mk (ud_url ud) = Ok tt /\
    check_network_access d st (ud_url ud) = Ok tt /\
    download_steps' ud d w = (Ok tt, w1) /\
    runfetchcmd (tar_command ud) d None [ud_localpath ud] s = (Ok out, fs w1) /\
    clean' ud d w1 = (Ok tt, w') /\
    trace w' =
      (trace w ++ [Call "download"; Call "_write_configspec";
                   NetCheck mk (ud_url ud); Run mk None;
                   NetCheck st (ud_url ud); Run st (Some (ud_viewdir ud));
                   Run (tar_command ud) None;
                   Call "clean"; Call "_remove_view"] ++ evs)%list /\
    (os_path_exists (ud_viewdir ud) (fs w1) = false /\ evs = [] \/
     os_path_exists (ud_viewdir ud) (fs w1) = true /\
     exists rm,
       build ud "rmview" = Ok rm /\
       check_network_access d rm (ud_url ud) = Ok tt /\
       evs = [NetCheck rm (ud_url ud); Run rm (Some (ud_ccasedir ud))]) /\
    files (fs w') !! ud_configspecfile ud = None.
Proof.
  intros H. unfold download in H.
  apply bind_ok_inv in H as ([] & w1 & Hsteps & Hclean).
  pose proof Hsteps as Hsteps'.
  apply download_steps_ok_trace in Hsteps'
    as (mk & st & s & out & Hmk & Hst & Hn1 & Hn2 & Htar & T1).
  pose proof (clean_removes_configspec _ _ _ ud d w1 w' Hclean) as Hgone.
  pose proof Hclean as Hclean'.
  apply clean_ok_trace in Hclean' as (evs & T2 & Hevs).
  exists mk, st, w1, s, out, evs. repeat split; try assumption.
  rewrite T2, T1. rewrite <- !app_assoc. reflexivity.
Qed.

(** C1, as amended: [download] calls [clean] as its last statement, that
    is, exactly when every step before it (making the cache directory,
    writing the config spec, the network checks, mkview, setcs, the copy and
    tar) has succeeded.  When that [clean] returns, the config spec file is
    deleted, and rmview has been run (after its network check, in the ccase
    directory) if the view directory existed when [clean] was entered, and
    has not been run if it did not.  When one of the steps raises,
    [download] raises the same error from the same state and [clean] has
    not been called. *)
Theorem download_cleans_after_success
    (ud : FetchData) (d : DataStore) (w : World) :
  exists evs,
    trace (snd (download' ud d w)) = (trace w ++ evs)%list /\
    match download_steps' ud d w with
    | (Ok _, w1) =>
        download' ud d w = clean' ud d w1 /\
        In (Call "clean") evs /\
        (fst (download' ud d w) = Ok tt ->
         files (fs (snd (download' ud d w))) !! ud_configspecfile ud = None /\
         exists before,
           ~ In (Call "clean") before /\
           (os_path_exists (ud_viewdir ud) (fs w1) = true ->
            exists rm,
              build ud "rmview" = Ok rm /\
              evs = (before ++ [Call "clean"; Call "_remove_view";
                                NetCheck rm (ud_url ud);
                                Run rm (Some (ud_ccasedir ud))])%list) /\
           (os_path_exists (ud_viewdir ud) (fs w1) = false ->
            evs = (before ++ [Call "clean"; Call "_remove_view"])%list))
    | (Raise e, w1) =>
        download' ud d w = (Raise e, w1) /\ ~ In (Call "clean") evs
    end.
Proof.
  destruct (download_steps_no_clean runfetchcmd check_network_access
              fetch_error_msg ud d w) as (evs1 & Ht & Hall).
  assert (Hnone : ~ In (Call "clean") evs1).
  { intros Hin. rewrite List.Forall_forall in Hall. exact (Hall _ Hin eq_refl). }
  unfold download, bind.
  destruct (download_steps' ud d w) as [[[]|e] w1] eqn:E; cbn [snd] in Ht.
  - destruct (clean_trace runfetchcmd check_network_access fetch_error_msg
                ud d w1) as (evs2 & Hc).
    exists (evs1 ++ Call "clean" :: evs2)%list. split.
    + rewrite Hc, Ht, <- app_assoc. reflexivity.
    + split; [reflexivity|]. split.
      * apply in_or_app. right. left. reflexivity.
      * intros Hok. destruct (clean' ud d w1) as [r w'] eqn:Ec.
        cbn [fst snd] in *. subst r.
        split; [exact (clean_removes_configspec _ _ _ ud d w1 w' Ec)|].
        exists evs1. split; [exact Hnone|].
        apply clean_ok_trace in Ec as (evs & T & Hevs).
        assert (Heq : (Call "clean" :: evs2 =
                       [Call "clean"; Call "_remove_view"] ++ evs)%list).
        { rewrite T in Hc. apply app_inv_head in Hc. symmetry. exact Hc. }
        rewrite Heq.
        destruct Hevs as [[Hno ->] | [Hyes (rm & Hrm & _ & ->)]]; split.
        -- intros Hyes. rewrite Hyes in Hno. discriminate Hno.
        -- intros _. reflexivity.
        -- intros _. exists rm. split; [exact Hrm | reflexivity].
        -- intros Hno. rewrite Hyes in Hno. discriminate Hno.
  - exists evs1. split; [exact Ht|]. split; [reflexivity | exact Hnone].
Qed.

End Runs.

(** X11, witness: the recipe of the module documentation under
    BB_NO_NETWORK. *)
Lemma download_network_refused_witness :
  download (Sample.client Sample.ud_rel1) Scenario.network_refused
    Sample.fetcher_failure Sample.ud_rel1 Sample.d_rel1 Sample.empty_world =
    (Raise (OtherError "NetworkAccess"
              ("Network access disabled: " ++ Sample.mkview_cmd)),
     {| fs := prepared Sample.ud_rel1 Sample.d_rel1 (fs Sample.empty_world);
        trace := (trace Sample.empty_world ++
                  [Call "download"; Call "_write_configspec";
                   NetCheck Sample.mkview_cmd (ud_url Sample.ud_rel1)])%list |}).
Proof.
  apply (download_network_refused (Sample.client Sample.ud_rel1)
           Scenario.network_refused Sample.fetcher_failure
           Sample.ud_rel1 Sample.d_rel1 Sample.empty_world Sample.mkview_cmd).
  - reflexivity.
  - apply not_elem_of_union. split.
    + apply not_elem_of_singleton. vm_compute. discriminate.
    + apply not_elem_of_empty.
  - vm_compute. reflexivity.
  - vm_compute. reflexivity.
  - reflexivity.
Defined.

(** X12, witness: a view left behind, with a client whose rmview fails and
    with one whose rmview works. *)
Lemma clean_existing_view_witness :
  clean (Scenario.client_rmview_fails Sample.ud_rel1) Sample.network_allowed
    Sample.fetcher_failure Sample.ud_rel1 Sample.d_rel1 Scenario.world_with_view =
    (Raise (FetchError Scenario.rmview_refused),
     {| fs := fs Scenario.world_with_view;
        trace := (trace Scenario.world_with_view ++
                  [Call "clean"; Call "_remove_view";
                   NetCheck Scenario.rmview_cmd (ud_url Sample.ud_rel1);
                   Run Scenario.rmview_cmd (Some (ud_ccasedir Sample.ud_rel1))])%list |}) /\
  clean (Sample.client Sample.ud_rel1) Sample.network_allowed
    Sample.fetcher_failure Sample.ud_rel1 Sample.d_rel1 Scenario.world_with_view =
    (Ok tt,
     {| fs := {| files := delete (ud_configspecfile Sample.ud_rel1)
                            (files Scenario.fs_view_removed);
                 dirs := dirs Scenario.fs_view_removed |};
        trace := (trace Scenario.world_with_view ++
                  [Call "clean"; Call "_remove_view";
                   NetCheck Scenario.rmview_cmd (ud_url Sample.ud_rel1);
                   Run Scenario.rmview_cmd (Some (ud_ccasedir Sample.ud_rel1))])%list |}).
Proof.
  split.
  - apply (clean_existing_view (Scenario.client_rmview_fails Sample.ud_rel1)
             Sample.network_allowed Sample.fetcher_failure
             Sample.ud_rel1 Sample.d_rel1 Scenario.world_with_view
             Scenario.rmview_cmd (Raise (FetchError Scenario.rmview_refused))
             (fs Scenario.world_with_view)).
    + vm_compute. reflexivity.
    + vm_compute. reflexivity.
    + reflexivity.
    + vm_compute. reflexivity.
  - apply (clean_existing_view (Sample.client Sample.ud_rel1)
             Sample.network_allowed Sample.fetcher_failure
             Sample.ud_rel1 Sample.d_rel1 Scenario.world_with_view
             Scenario.rmview_cmd (Ok "Removed view.")
             Scenario.fs_view_removed).
    + vm_compute. reflexivity.
    + vm_compute. reflexivity.
    + reflexivity.
    + vm_compute. reflexivity.
Defined.

(** X13, witness: a view left behind, under BB_NO_NETWORK. *)
Lemma clean_network_refused_witness :
  clean (Sample.client Sample.ud_rel1) Scenario.network_refused
    Sample.fetcher_failure Sample.ud_rel1 Sample.d_rel1 Scenario.world_with_view =
    (Raise (OtherError "NetworkAccess"
              ("Network access disabled: " ++ Scenario.rmview_cmd)),
     {| fs := fs Scenario.world_with_view;
        trace := (trace Scenario.world_with_view ++
                  [Call "clean"; Call "_remove_view";
                   NetCheck Scenario.rmview_cmd (ud_url Sample.ud_rel1)])%list |}).
Proof.
  apply (clean_network_refused (Sample.client Sample.ud_rel1)
           Scenario.network_refused Sample.fetcher_failure
           Sample.ud_rel1 Sample.d_rel1 Scenario.world_with_view
           Scenario.rmview_cmd).
  - vm_compute. reflexivity.
  - vm_compute. reflexivity.
  - reflexivity.
Defined.

(** X14, witness: the fetch that goes through; its view directory exists
    when [clean] is entered, and rmview is run. *)
Lemma download_ok_order_witness :
  exists mk st w1 s out evs,
    _build_ccase_command Sample.fetcher_failure Sample.ud_rel1 "mkview" = Ok mk /\
    _build_ccase_command Sample.fetcher_failure Sample.ud_rel1 "setcs" = Ok st /\
    Sample.network_allowed Sample.d_rel1 mk (ud_url Sample.ud_rel1) = Ok tt /\
    Sample.network_allowed Sample.d_rel1 st (ud_url Sample.ud_rel1) = Ok tt /\
    download_steps (Sample.client Sample.ud_rel1) Sample.network_allowed
      Sample.fetcher_failure Sample.ud_rel1 Sample.d_rel1 Sample.empty_world =
      (Ok tt, w1) /\
    Sample.client Sample.ud_rel1 (tar_command Sample.ud_rel1) Sample.d_rel1 None
      [ud_localpath Sample.ud_rel1] s = (Ok out, fs w1) /\
    clean (Sample.client Sample.ud_rel1) Sample.network_allowed
      Sample.fetcher_failure Sample.ud_rel1 Sample.d_rel1 w1 =
      (Ok tt, snd Sample.run_ok) /\
    trace (snd Sample.run_ok) =
      (trace Sample.empty_world ++
       [Call "download"; Call "_write_configspec";
        NetCheck mk (ud_url Sample.ud_rel1); Run mk None;
        NetCheck st (ud_url Sample.ud_rel1);
        Run st (Some (ud_viewdir Sample.ud_rel1));
        Run (tar_command Sample.ud_rel1) None;
        Call "clean"; Call "_remove_view"] ++ evs)%list /\
    (os_path_exists (ud_viewdir Sample.ud_rel1) (fs w1) = false /\ evs = [] \/
     os_path_exists (ud_viewdir Sample.ud_rel1) (fs w1) = true /\
     exists rm,
       _build_ccase_command Sample.fetcher_failure Sample.ud_rel1 "rmview" = Ok rm /\
       Sample.network_allowed Sample.d_rel1 rm (ud_url Sample.ud_rel1) = Ok tt /\
       evs = [NetCheck rm (ud_url Sample.ud_rel1);
              Run rm (Some (ud_ccasedir Sample.ud_rel1))]) /\
    files (fs (snd Sample.run_ok)) !! ud_configspecfile Sample.ud_rel1 = None.
Proof.
  apply (download_ok_order (Sample.client Sample.ud_rel1) Sample.network_allowed
           Sample.fetcher_failure Sample.ud_rel1 Sample.d_rel1
           Sample.empty_world (snd Sample.run_ok)).
  vm_compute. reflexivity.
Defined.

Example run_ok_view_exists_when_cleaned :
  os_path_exists (ud_viewdir Sample.ud_rel1) (fs Sample.after_tar) = true /\
  In (Run Scenario.rmview_cmd (Some (ud_ccasedir Sample.ud_rel1)))
     (trace (snd Sample.run_ok)).
Proof. split; vm_compute; [reflexivity | intuition]. Qed.

Example view_removed_config_spec_left :
  os_path_exists (ud_viewdir Sample.ud_rel1) Scenario.fs_view_removed = false /\
  files Scenario.fs_view_removed !! ud_configspecfile Sample.ud_rel1 =
    Some "element * CHECKEDOUT".
Proof. split; vm_compute; reflexivity. Qed.
